(** * napari-features: the per-object feature generator

    A shallow embedding of [napari_features/generator.py]: the [cache]
    decorator, the [Generator] iterator ([__init__], [__next__]), its cached
    derived quantities and its [_feature_*] properties, followed by the
    properties of the engine that are proved about them.

    Conventions of the embedding.
    - A numpy array is a shape together with its elements in row-major
      (C) order.
    - Finite floating-point intensities are idealised as rationals ([Q]);
      the results of float divisions are [npfloat]s, which add [NaN] and the
      two infinities, because numpy returns those (with a warning, not an
      exception) when the divisor is zero.
    - Python exceptions are values of [exn]; a method is a function from the
      state to a result and the new state, so that whatever was written to
      the cache before an exception stays written, as in Python.
    - The routines of scikit-image, scipy.stats and the float routines of
      numpy are the fields of the class [Library]. *)

From Stdlib Require Import QArith Qabs.
From stdpp Require Import base option list sorting gmap strings fin_maps.

Local Open Scope string_scope.
Local Open Scope Z_scope.
Local Open Scope nat_scope.

(** ** Exceptions and results *)

Inductive exn : Type :=
| IndexError
| StopIteration
| ValueError
| TypeError
| KeyError
| AttributeError
| ZeroDivisionError
| NotImplementedError.

Inductive result (A : Type) : Type :=
| Ok (a : A)
| Raise (e : exn).
Arguments Ok {A} a.
Arguments Raise {A} e.

Definition is_ok {A} (r : result A) : bool :=
  match r with Ok _ => true | Raise _ => false end.

(** ** numpy arrays *)

Record ndarray (A : Type) : Type := NdArray { shape : list nat; data : list A }.
Arguments NdArray {A} shape data.
Arguments shape {A} _.
Arguments data {A} _.

(** Number of elements of an array of a given shape. *)
Definition size_of (sh : list nat) : nat := foldr Nat.mul 1 sh.

Definition ndim {A} (a : ndarray A) : nat := length (shape a).
Definition size {A} (a : ndarray A) : nat := size_of (shape a).

(** The data of a well-formed array fills its shape. *)
Definition wf {A} (a : ndarray A) : Prop := length (data a) = size_of (shape a).

(** All multi-indices of a shape, in row-major order. *)
Fixpoint indices_of (sh : list nat) : list (list nat) :=
  match sh with
  | [] => [[]]
  | n :: sh' => i ← seq 0 n; (cons i) <$> indices_of sh'
  end.

(** Row-major offset of a multi-index. *)
Fixpoint ravel (sh idx : list nat) : nat :=
  match sh, idx with
  | _ :: sh', i :: idx' => i * size_of sh' + ravel sh' idx'
  | _, _ => 0
  end.

(** [a[idx]] for a full multi-index that is in bounds ([d] otherwise). *)
Definition item {A} (d : A) (a : ndarray A) (idx : list nat) : A :=
  default d (data a !! ravel (shape a) idx).

(** The array of shape [sh] whose element at [idx] is [f idx]. *)
Definition build {A} (sh : list nat) (f : list nat → A) : ndarray A :=
  NdArray sh (f <$> indices_of sh).

Definition amap {A B} (f : A → B) (a : ndarray A) : ndarray B :=
  NdArray (shape a) (f <$> data a).

(** A Python [slice(start, stop, None)] with non-negative bounds. *)
Record slice : Type := Slice { start : nat; stop : nat }.

(** Extent selected by a slice on an axis of length [n] (bounds are clipped,
    as by Python's [slice.indices]). *)
Definition slice_start (n : nat) (sl : slice) : nat := start sl `min` n.
Definition slice_len (n : nat) (sl : slice) : nat :=
  (stop sl `min` n) - (start sl `min` n).

Fixpoint sliced_shape (sh : list nat) (obj : list slice) : list nat :=
  match sh, obj with
  | n :: sh', sl :: obj' => slice_len n sl :: sliced_shape sh' obj'
  | _, _ => sh
  end.

Fixpoint sliced_index (sh : list nat) (obj : list slice) (idx : list nat) : list nat :=
  match sh, obj, idx with
  | n :: sh', sl :: obj', i :: idx' =>
      (slice_start n sl + i) :: sliced_index sh' obj' idx'
  | _, _, _ => idx
  end.

(** [a[obj]] for [obj] a tuple of slices (basic indexing): axes beyond the
    tuple are kept whole; more slices than axes is an [IndexError]. *)
Definition getitem_slices {A} (d : A) (a : ndarray A) (obj : list slice)
  : result (ndarray A) :=
  if decide (length obj ≤ ndim a) then
    Ok (build (sliced_shape (shape a) obj)
              (λ idx, item d a (sliced_index (shape a) obj idx)))
  else Raise IndexError.

(** [a[None]]: a new leading axis of length one. *)
Definition getitem_newaxis {A} (a : ndarray A) : ndarray A :=
  NdArray (1 :: shape a) (data a).

(** An element of [scipy.ndimage.find_objects]'s list is a tuple of slices,
    or [None] for a label that does not occur; [a[entry]] is then basic
    indexing with that entry. *)
Definition getitem {A} (d : A) (a : ndarray A) (entry : option (list slice))
  : result (ndarray A) :=
  match entry with
  | Some obj => getitem_slices d a obj
  | None => Ok (getitem_newaxis a)
  end.

(** [numpy.squeeze]: axes of length one are removed. *)
Definition squeeze {A} (a : ndarray A) : ndarray A :=
  NdArray (filter (λ n, n ≠ 1) (shape a)) (data a).

(** Broadcasting of two shapes, aligned on their last axes; the lists are
    the reversed shapes. *)
Fixpoint broadcast_rev (a b : list nat) : option (list nat) :=
  match a, b with
  | [], _ => Some b
  | _, [] => Some a
  | x :: a', y :: b' =>
      r ← broadcast_rev a' b';
      if decide (x = y) then Some (x :: r)
      else if decide (x = 1) then Some (y :: r)
      else if decide (y = 1) then Some (x :: r)
      else None
  end.

Definition broadcast_shapes (a b : list nat) : option (list nat) :=
  reverse <$> broadcast_rev (reverse a) (reverse b).

(** The index into an operand of shape [sh] that a result index [idx] reads. *)
Definition broadcast_index (sh idx : list nat) : list nat :=
  zip_with (λ n i, if decide (n = 1) then 0 else i) sh
           (drop (length idx - length sh) idx).

(** Element-wise binary operation with broadcasting; shapes that do not
    broadcast are a [ValueError]. *)
Definition broadcast2 {A B C} (da : A) (db : B) (f : A → B → C)
    (a : ndarray A) (b : ndarray B) : result (ndarray C) :=
  match broadcast_shapes (shape a) (shape b) with
  | Some sh =>
      Ok (build sh (λ idx, f (item da a (broadcast_index (shape a) idx))
                             (item db b (broadcast_index (shape b) idx))))
  | None => Raise ValueError
  end.

(** ** Numbers *)

(** A numpy float: a finite value, NaN, or an infinity. *)
Inductive npfloat : Type :=
| Fin (q : Q)
| NaN
| Inf (negative : bool).

Definition Qnonzero (q : Q) : bool := negb (Qeq_bool q 0).

(** Float division as numpy performs it: a zero divisor gives NaN or an
    infinity, never an exception. *)
Definition fdiv (a b : Q) : npfloat :=
  if Qnonzero b then Fin (Qred (a / b))
  else if Qnonzero a then Inf (Qle_bool a 0)
  else NaN.

Definition Zsum (l : list Z) : Z := foldr Z.add 0%Z l.
Definition Qsum (l : list Q) : Q := Qred (foldr Qplus 0%Q l).

(** [numpy.sum] of an integer array and of a float array. *)
Definition np_sum_int (a : ndarray Z) : Z := Zsum (data a).
Definition np_sum (a : ndarray Q) : Q := Qsum (data a).

(** [numpy.mean] of a float array (NaN for an empty one). *)
Definition np_mean (a : ndarray Q) : npfloat :=
  fdiv (np_sum a) (inject_Z (Z.of_nat (length (data a)))).

Definition Qmax (a b : Q) : Q := if Qle_bool a b then b else a.
Definition Qmin (a b : Q) : Q := if Qle_bool a b then a else b.

(** [numpy.max] and [numpy.min]: a [ValueError] on an empty array. *)
Definition np_max (a : ndarray Q) : result Q :=
  match data a with
  | [] => Raise ValueError
  | x :: l => Ok (foldl Qmax x l)
  end.

Definition np_min (a : ndarray Q) : result Q :=
  match data a with
  | [] => Raise ValueError
  | x :: l => Ok (foldl Qmin x l)
  end.

(** [numpy.nonzero] of an array of at least one axis: one index array per
    axis, over the nonzero elements in row-major order. *)
Definition nonzero_indices {A} (nz : A → bool) (d : A) (a : ndarray A)
  : list (list nat) :=
  filter (λ idx, nz (item d a idx) = true) (indices_of (shape a)).

Definition np_nonzero {A} (nz : A → bool) (d : A) (a : ndarray A) : list (list Z) :=
  (λ k, (λ idx, Z.of_nat (default 0 (idx !! k))) <$> nonzero_indices nz d a)
    <$> seq 0 (ndim a).

(** [numpy.vstack(stack).T] for a stack of one-dimensional arrays of equal
    length [n]: the array of shape [(n, len(stack))] whose row [r] collects
    the [r]-th element of each; an empty stack is a [ValueError]. *)
Definition vstack_T (stack : list (list Z)) : result (ndarray Z) :=
  match stack with
  | [] => Raise ValueError
  | col :: _ =>
      Ok (NdArray [length col; length stack]
            (r ← seq 0 (length col); (λ c, default 0%Z (c !! r)) <$> stack))
  end.

(** [a.mean(axis=0)] for a two-dimensional integer array: one float per
    column (NaN when the array has no row). *)
Definition mean_axis0 (a : ndarray Z) : list npfloat :=
  match shape a with
  | [n; m] =>
      (λ c, fdiv (inject_Z (Zsum ((λ r, item 0%Z a [r; c]) <$> seq 0 n)))
                 (inject_Z (Z.of_nat n))) <$> seq 0 m
  | _ => []
  end.

(** Lexicographic [<] on tuples of integers, as Python compares shapes. *)
Fixpoint tuple_lt (a b : list nat) : bool :=
  match a, b with
  | [], [] => false
  | [], _ :: _ => true
  | _ :: _, [] => false
  | x :: a', y :: b' =>
      if decide (x < y) then true
      else if decide (y < x) then false
      else tuple_lt a' b'
  end.

(** ** Python containers *)

(** [l[i]] for a Python list or tuple and an integer [i]: a negative index
    counts from the end; [None] stands for the [IndexError]. *)
Definition py_getitem {A} (l : list A) (i : Z) : option A :=
  if decide (0 ≤ i)%Z then l !! Z.to_nat i
  else if decide (0 ≤ Z.of_nat (length l) + i)%Z then l !! Z.to_nat (Z.of_nat (length l) + i)
  else None.

Definition result_bind {A B} (r : result A) (k : A → result B) : result B :=
  match r with Ok a => k a | Raise e => Raise e end.

#[export] Instance result_ret : MRet result := λ A a, Ok a.
#[export] Instance result_mbind : MBind result := λ A B k r, result_bind r k.

Definition index_or_raise {A} (l : list A) (i : Z) : result A :=
  match py_getitem l i with Some a => Ok a | None => Raise IndexError end.

Fixpoint result_mapM {A B} (f : A → result B) (l : list A) : result (list B) :=
  match l with
  | [] => Ok []
  | x :: l' => y ← f x; ys ← result_mapM f l'; Ok (y :: ys)
  end.

(** ** scipy.ndimage.find_objects

    Modelled from its documentation: the list has one entry per label
    [1 .. max(label)]; entry [l - 1] is the tuple of slices of the smallest
    box that holds every element equal to [l], or [None] when no element
    is; the maximum of an empty array is a [ValueError]. *)

Definition np_max_int (a : ndarray Z) : result Z :=
  match data a with
  | [] => Raise ValueError
  | x :: l => Ok (foldl Z.max x l)
  end.

Definition axis_slice (hits : list (list nat)) (k : nat) : slice :=
  let ks := (λ idx, default 0 (idx !! k)) <$> hits in
  Slice (foldr Nat.min (default 0 (head ks)) ks) (S (foldr Nat.max 0 ks)).

Definition bounding_box (a : ndarray Z) (l : Z) : option (list slice) :=
  match nonzero_indices (λ z, bool_decide (z = l)) 0%Z a with
  | [] => None
  | hits => Some (axis_slice hits <$> seq 0 (ndim a))
  end.

Definition find_objects (a : ndarray Z) : result (list (option (list slice))) :=
  m ← np_max_int a;
  Ok ((λ l, bounding_box a (Z.of_nat l)) <$> seq 1 (Z.to_nat m)).

(** ** Values and the generator's state *)

(** What a property of the generator can evaluate to. *)
Inductive value : Type :=
| VInt (z : Z)
| VFloat (x : npfloat)
| VImage (a : ndarray Q)
| VMask (a : ndarray bool)
| VIntArr (a : ndarray Z)
| VFloatArr (a : ndarray npfloat)
| VTuple (l : list value).

(** The attributes that [Generator.__init__] sets. *)
Record Generator : Type := mkGenerator {
  self_cache : gmap string value;
  self_image : ndarray Q;
  self_label : ndarray Z;
  self_multichannel : bool;
  self_objects : list (option (list slice));
  self_object_index : Z;
  self_object : option (list slice);
  self_volumetric : bool;
  self_cropped : option value;
  self_spatial_axes : list nat
}.

Definition with_cache (c : gmap string value) (g : Generator) : Generator :=
  mkGenerator c (self_image g) (self_label g) (self_multichannel g)
    (self_objects g) (self_object_index g) (self_object g) (self_volumetric g)
    (self_cropped g) (self_spatial_axes g).

Definition with_object (o : option (list slice)) (g : Generator) : Generator :=
  mkGenerator (self_cache g) (self_image g) (self_label g) (self_multichannel g)
    (self_objects g) (self_object_index g) o (self_volumetric g)
    (self_cropped g) (self_spatial_axes g).

Definition with_object_index (i : Z) (g : Generator) : Generator :=
  mkGenerator (self_cache g) (self_image g) (self_label g) (self_multichannel g)
    (self_objects g) i (self_object g) (self_volumetric g)
    (self_cropped g) (self_spatial_axes g).

(** What a call of a method leaves behind: what it returned or raised,
    the generator afterwards, and [invoked], the names of the functions
    wrapped by [cache] that ran during the call, in order.  [invoked] is
    instrumentation: nothing in the model reads it. *)
Record outcome (A : Type) : Type := mkOutcome {
  returned : result A;
  after : Generator;
  invoked : list string
}.
Arguments mkOutcome {A} returned after invoked.
Arguments returned {A} _.
Arguments after {A} _.
Arguments invoked {A} _.

(** A method of the generator. *)
Definition M (A : Type) : Type := Generator → outcome A.

Definition ret {A} (a : A) : M A := λ g, mkOutcome (Ok a) g [].
Definition raise {A} (e : exn) : M A := λ g, mkOutcome (Raise e) g [].
Definition bind {A B} (m : M A) (k : A → M B) : M B := λ g,
  let o := m g in
  match returned o with
  | Ok a =>
      let o' := k a (after o) in
      mkOutcome (returned o') (after o') (invoked o ++ invoked o')
  | Raise e => mkOutcome (Raise e) (after o) (invoked o)
  end.

#[export] Instance M_ret : MRet M := @ret.
#[export] Instance M_bind : MBind M := λ A B k m, bind m k.

Definition lift {A} (r : result A) : M A := λ g, mkOutcome r g [].
Definition get_self : M Generator := λ g, mkOutcome (Ok g) g [].
Definition modify_self (f : Generator → Generator) : M unit := λ g,
  mkOutcome (Ok ()) (f g) [].
Definition note (name : string) : M unit := λ g, mkOutcome (Ok ()) g [name].

Fixpoint mapM {A B} (f : A → M B) (l : list A) : M (list B) :=
  match l with
  | [] => ret []
  | x :: l' => y ← f x; ys ← mapM f l'; ret (y :: ys)
  end.

(** Number of invocations of the function wrapped under [name]. *)
Definition invocations (name : string) (log : list string) : nat :=
  length (filter (λ n, n = name) log).

(** ** The [cache] decorator

    [wrapped.__name__] is passed as [name].  The wrapped function runs only
    when [name] is not a key of [generator.cache]; its result is stored
    under [name], and the stored value is returned. *)
Definition cache (name : string) (wrapped : M value) : M value :=
  generator ← get_self;
  _ ← (if decide (is_Some (self_cache generator !! name)) then ret ()
       else
         v ← (_ ← note name; wrapped);
         modify_self (λ g, with_cache (<[name := v]> (self_cache g)) g));
  generator ← get_self;
  match self_cache generator !! name with
  | Some v => ret v
  | None => raise KeyError
  end.

(** ** More indexing *)

Definition in_bounds (sh ix : list nat) : Prop :=
  length ix ≤ length sh ∧ Forall2 lt ix (take (length ix) sh).

#[export] Instance in_bounds_dec sh ix : Decision (in_bounds sh ix).
Proof. unfold in_bounds. apply _. Defined.

(** [a[i_1, ..., i_k]] for integers: the sub-array at that index prefix. *)
Definition getitem_ints {A} (d : A) (a : ndarray A) (ix : list nat)
  : result (ndarray A) :=
  if decide (in_bounds (shape a) ix) then
    Ok (build (drop (length ix) (shape a)) (λ idx, item d a (ix ++ idx)))
  else Raise IndexError.

(** Row [j] of [numpy.eye(n, dtype=int)]. *)
Definition unit_vector (n j : nat) : list nat :=
  (λ k, if decide (k = j) then 1 else 0) <$> seq 0 n.

(** [a[tuple(numpy.eye(n, dtype=int))]]: advanced indexing with the [n] rows
    of the identity as index arrays for the first [n] axes.  Element [j] of
    the result is [a[e_j]], where [e_j] is the [j]-th unit vector; for
    [n = 0] the tuple is empty and the result is [a]. *)
Definition getitem_eye {A} (d : A) (a : ndarray A) (n : nat) : result (ndarray A) :=
  if decide (n = 0) then Ok a
  else
    rows ← result_mapM (λ j, getitem_ints d a (unit_vector n j)) (seq 0 n);
    Ok (NdArray (n :: drop n (shape a)) (concat (data <$> rows))).

(** Shape of a value assigned into a target of rank [r]: leading axes of
    length one beyond that rank are dropped. *)
Fixpoint fit_rank (r : nat) (sh : list nat) : list nat :=
  match sh with
  | 1 :: sh' => if decide (length sh ≤ r) then sh else fit_rank r sh'
  | _ => sh
  end.

(** [v[0] = m]: [m] is broadcast to the shape of [v[0]]; a shape that does
    not broadcast to it is a [ValueError]. *)
Definition setitem_first {A} (d : A) (v m : ndarray A) : result (ndarray A) :=
  match shape v with
  | S _ :: sub =>
      let sh := fit_rank (length sub) (shape m) in
      if decide (broadcast_shapes sub sh = Some sub) then
        Ok (build (shape v) (λ idx,
              match idx with
              | 0 :: idx' => item d (NdArray sh (data m)) (broadcast_index sh idx')
              | _ => item d v idx
              end))
      else Raise ValueError
  | _ => Raise IndexError
  end.

Definition zeros (sh : list nat) : ndarray Q := build sh (λ _, 0%Q).

(** Iterating over an array (as [tuple(a)] does): its sub-arrays along the
    first axis, which are scalars when the array is one-dimensional; a
    zero-dimensional array is not iterable. *)
Definition iterate_floats (a : ndarray npfloat) : result (list value) :=
  match shape a with
  | [] => Raise TypeError
  | [n] => Ok (VFloat <$> data a)
  | n :: sub =>
      Ok ((λ j, VFloatArr (build sub (λ idx, item NaN a (j :: idx)))) <$> seq 0 n)
  end.

(** Dynamic typing: using a cached value at the type its consumer expects. *)
Definition as_image (v : value) : result (ndarray Q) :=
  match v with VImage a => Ok a | _ => Raise TypeError end.
Definition as_mask (v : value) : result (ndarray bool) :=
  match v with VMask a => Ok a | _ => Raise TypeError end.
Definition as_int_array (v : value) : result (ndarray Z) :=
  match v with VIntArr a => Ok a | _ => Raise TypeError end.
Definition as_float_array (v : value) : result (ndarray npfloat) :=
  match v with VFloatArr a => Ok a | _ => Raise TypeError end.
Definition as_int (v : value) : result Z :=
  match v with VInt z => Ok z | _ => Raise TypeError end.

(** A float times a boolean. *)
Definition mul_bool (x : Q) (b : bool) : Q := if b then x else 0%Q.

(** [a.astype(numpy.uint8)] on an integer array. *)
Definition astype_uint8 (a : ndarray Z) : ndarray Z := amap (λ z, z mod 256)%Z a.

(** [a.reshape(-1, )]. *)
Definition flatten {A} (a : ndarray A) : ndarray A :=
  NdArray [length (data a)] (data a).

(** ** The libraries

    The routines that the generator calls and that this development does
    not define: scikit-image's conversions, moments, inertia tensor, convex
    hull, boundary and Euler number, scipy's median absolute deviation,
    numpy's median, quantile and standard deviation, and the float power
    of [math].  Each may raise.  The two laws are the documented shapes of
    [img_as_ubyte] (that of its argument) and of [moments] ([order + 1]
    along each axis of the image). *)
Class Library : Type := {
  img_as_float32 : ndarray Q → ndarray Q;
  img_as_ubyte : ndarray Q → result (ndarray Z);
  moments : ndarray Z → nat → result (ndarray Q);
  moments_central : ndarray Z → value → nat → result value;
  inertia_tensor : ndarray Q → value → result value;
  inertia_tensor_eigvals : ndarray Z → value → result value;
  convex_hull_image : ndarray bool → result value;
  find_boundaries_outer : ndarray bool → result (ndarray bool);
  euler_number : ndarray Z → nat → result value;
  median_absolute_deviation : ndarray Q → result value;
  np_median : ndarray Q → result value;
  np_quantile : ndarray Q → Q → result value;
  np_std : ndarray Q → result value;
  (** [(x / math.pi) ** (1 / n)] for [n ≥ 1] *)
  root_over_pi : Z → nat → value;
  img_as_ubyte_shape : ∀ a b, img_as_ubyte a = Ok b → shape b = shape a;
  moments_shape : ∀ a order m,
    moments a order = Ok m → shape m = replicate (ndim a) (S order) ∧ wf m
}.

(** ** Strings *)

(** Python's [sorted] on strings: ascending code-point order. *)
Definition name_le (a b : string) : Prop := String.leb a b = true.

#[export] Instance name_le_dec a b : Decision (name_le a b).
Proof. unfold name_le. apply _. Defined.

Definition sorted (l : list string) : list string := merge_sort name_le l.

(** Python's [s.replace(old, new)] for a non-empty [old]. *)
Fixpoint replace_from (fuel : nat) (old new s : string) : string :=
  match fuel with
  | 0 => s
  | S fuel' =>
      if String.prefix old s then
        new +:+ replace_from fuel' old new
                  (String.substring (String.length old)
                     (String.length s - String.length old) s)
      else
        match s with
        | EmptyString => EmptyString
        | String c s' => String c (replace_from fuel' old new s')
        end
  end.

Definition replace (old new s : string) : string :=
  replace_from (S (String.length s)) old new s.

(** ** The vocabulary of the specification *)

(** The label image has exactly the labels [1 .. n]. *)
Definition dense_labels (label : ndarray Z) (n : nat) : Prop :=
  Forall (λ x, (x ≤ Z.of_nat n)%Z) (data label) ∧
  Forall (λ l, Z.of_nat l ∈ data label) (seq 1 n).

#[export] Instance dense_labels_dec label n : Decision (dense_labels label n).
Proof. unfold dense_labels. apply _. Defined.

(** The shape of the intensity image is that of the label image, or that
    shape with one more, trailing, channel axis. *)
Definition compatible_shapes (label : ndarray Z) (image : ndarray Q) : Prop :=
  shape image = shape label ∨ ∃ channels : nat, shape image = (shape label ++ [channels])%list.

(** A multi-index lies inside a tuple of slices. *)
Definition inside (obj : list slice) (idx : list nat) : Prop :=
  Forall2 (λ sl i, start sl ≤ i < stop sl) obj (take (length obj) idx).

#[export] Instance inside_dec obj idx : Decision (inside obj idx).
Proof. unfold inside. apply _. Defined.

(** The coordinates as the specification words them: one row per nonzero
    element of the intensity image that lies inside the object's slices,
    holding the absolute multi-index of that element. *)
Definition coordinates_in_slice (image : ndarray Q) (obj : list slice) : ndarray Z :=
  let rows := filter (λ idx, inside obj idx ∧ Qnonzero (item 0%Q image idx) = true)
                     (indices_of (shape image)) in
  NdArray [length rows; length obj]
    (r ← rows; (λ i, Z.of_nat i) <$> take (length obj) r).

Section Generator.
Context `{Library}.

(** ** The cached derived quantities

    Each is a property wrapped by [cache]; they are listed in dependency
    order (the class lists them alphabetically). *)

Definition area : M value :=
  cache "area" (
    self ← get_self;
    ret (VInt (np_sum_int (self_label self)))).

(** [indices[index] + self.object[index].start]: the index array of one
    axis, shifted by the start of the object's slice on that axis. *)
Definition shifted_axis (indices : list (list Z)) (object : option (list slice))
    (index : nat) : result (list Z) :=
  column ← index_or_raise indices (Z.of_nat index);
  slices ← match object with Some o => Ok (o : list slice) | None => Raise TypeError end;
  sl ← index_or_raise slices (Z.of_nat index);
  Ok ((λ i, i + Z.of_nat (start sl))%Z <$> (column : list Z)).

Definition coordinates : M value :=
  cache "coordinates" (
    self ← get_self;
    let indices := np_nonzero Qnonzero 0%Q (self_image self) in
    stack ← lift (result_mapM (shifted_axis indices (self_object self))
                              (seq 0 (ndim (self_label self))));
    a ← lift (vstack_T stack);
    ret (VIntArr a)).

Definition centroid : M value :=
  cache "centroid" (
    c ← coordinates;
    a ← lift (as_int_array c);
    let means := mean_axis0 a in
    ret (VFloatArr (NdArray [length means] means))).

Definition crop : M value :=
  cache "crop" (
    self ← get_self;
    a ← lift (getitem 0%Q (self_image self) (self_object self));
    ret (VImage a)).

Definition mask : M value :=
  cache "mask" (
    self ← get_self;
    a ← lift (getitem 0%Z (self_label self) (self_object self));
    ret (VMask (amap (λ z, bool_decide (0 < z)%Z) (squeeze a)))).

Definition convex_hull : M value :=
  cache "convex_hull" (
    m ← mask;
    m ← lift (as_mask m);
    lift (convex_hull_image m)).

Definition edge : M value :=
  cache "edge" (
    m ← mask;
    m ← lift (as_mask m);
    boundary ← lift (find_boundaries_outer m);
    c ← crop;
    c ← lift (as_image c);
    a ← lift (broadcast2 0%Q false mul_bool c boundary);
    ret (VImage a)).

Definition masked : M value :=
  cache "masked" (
    self ← get_self;
    a ← lift (getitem 0%Q (self_image self) (self_object self));
    m ← mask;
    m ← lift (as_mask m);
    r ← lift (broadcast2 0%Q false mul_bool a m);
    ret (VImage r)).

Definition spatial_moments : M value :=
  cache "spatial_moments" (
    mk ← masked;
    mk ← lift (as_image mk);
    u ← lift (img_as_ubyte mk);
    m ← lift (moments u 3);
    self ← get_self;
    if negb (self_volumetric self) then
      v ← lift (setitem_first 0%Q (zeros [4; 4; 4]) m);
      ret (VImage v)
    else ret (VImage m)).

Definition local_centroid : M value :=
  cache "local_centroid" (
    sm ← spatial_moments;
    sm ← lift (as_image sm);
    self ← get_self;
    let n := ndim (self_label self) in
    numerator ← lift (getitem_eye 0%Q sm n);
    denominator ← lift (getitem_ints 0%Q sm (replicate n 0));
    quotient ← lift (broadcast2 0%Q 0%Q fdiv numerator denominator);
    t ← lift (iterate_floats quotient);
    ret (VTuple t)).

Definition central_moments : M value :=
  cache "central_moments" (
    self ← get_self;
    c ← local_centroid;
    lift (moments_central (astype_uint8 (self_label self)) c 3)).

Definition inertia_tensor_ : M value :=
  cache "inertia_tensor" (
    self ← get_self;
    cm ← central_moments;
    lift (inertia_tensor (self_image self) cm)).

Definition inertia_tensor_eigenvalues : M value :=
  cache "inertia_tensor_eigenvalues" (
    self ← get_self;
    t ← inertia_tensor_;
    lift (inertia_tensor_eigvals (self_label self) t)).

(** ** The features

    Every feature is a property named [_feature_...]; only
    [_feature_color_object_maximum_intensity] is also wrapped by [cache]. *)

(** The features that are declared and return the constant [0.0]. *)
Definition placeholder : M value := ret (VFloat (Fin 0)).

(** Reductions of a float array, as values. *)
Definition sum_of (a : ndarray Q) : M value := ret (VFloat (Fin (np_sum a))).
Definition mean_of (a : ndarray Q) : M value := ret (VFloat (np_mean a)).
Definition max_of (a : ndarray Q) : M value :=
  x ← lift (np_max a); ret (VFloat (Fin x)).
Definition min_of (a : ndarray Q) : M value :=
  x ← lift (np_min a); ret (VFloat (Fin x)).

(** Color: image *)

Definition _feature_color_image_integrated_intensity : M value :=
  self ← get_self; sum_of (self_image self).
Definition _feature_color_image_maximum_intensity : M value :=
  self ← get_self; max_of (self_image self).
Definition _feature_color_image_mean_intensity : M value :=
  self ← get_self; mean_of (self_image self).
Definition _feature_color_image_median_absolute_deviation_intensity : M value :=
  self ← get_self; lift (median_absolute_deviation (flatten (self_image self))).
Definition _feature_color_image_median_intensity : M value :=
  self ← get_self; lift (np_median (self_image self)).
Definition _feature_color_image_minimum_intensity : M value :=
  self ← get_self; min_of (self_image self).
Definition _feature_color_image_quantile_1_intensity : M value :=
  self ← get_self; lift (np_quantile (self_image self) (1 # 4)).
Definition _feature_color_image_quantile_3_intensity : M value :=
  self ← get_self; lift (np_quantile (self_image self) (3 # 4)).
Definition _feature_color_image_standard_deviation_intensity : M value :=
  self ← get_self; lift (np_std (self_image self)).

(** Color: object *)

Definition edge_image : M (ndarray Q) := e ← edge; lift (as_image e).
Definition masked_image : M (ndarray Q) := m ← masked; lift (as_image m).

Definition _feature_color_object_edge_integrated_intensity : M value :=
  e ← edge_image; sum_of e.
Definition _feature_color_object_edge_maximum_intensity : M value :=
  e ← edge_image; max_of e.
Definition _feature_color_object_edge_mean_intensity : M value :=
  e ← edge_image; mean_of e.
Definition _feature_color_object_edge_median_intensity : M value :=
  e ← edge_image; lift (np_median e).
Definition _feature_color_object_edge_minimum_intensity : M value :=
  e ← edge_image; min_of e.
Definition _feature_color_object_edge_quantile_1_intensity : M value :=
  e ← edge_image; lift (np_quantile e (1 # 4)).
Definition _feature_color_object_edge_quantile_3_intensity : M value :=
  e ← edge_image; lift (np_quantile e (3 # 4)).
Definition _feature_color_object_edge_standard_deviation_intensity : M value :=
  e ← edge_image; lift (np_std e).

Definition _feature_color_object_integrated_intensity : M value :=
  m ← masked_image; sum_of m.

Definition _feature_color_object_maximum_intensity : M value :=
  cache "_feature_color_object_maximum_intensity" (
    m ← masked_image; max_of m).

(** [numpy.where(self.image == v)]: the index arrays of the elements of
    the image that equal [v]. *)
Definition where_equal (image : ndarray Q) (v : value) : result (list (list Z)) :=
  match v with
  | VFloat x =>
      let same q := match x with Fin y => Qeq_bool q y | _ => false end in
      Ok (np_nonzero id false (amap same image))
  | _ => Raise TypeError
  end.

(** [first, second = t]: unpacking a tuple that must have two elements. *)
Definition unpack2 {A} (t : list A) : result (A * A) :=
  match t with
  | [a; b] => Ok (a, b)
  | _ => Raise ValueError
  end.

Definition _feature_color_object_maximum_intensity_x : M value :=
  self ← get_self;
  v ← _feature_color_object_maximum_intensity;
  t ← lift (where_equal (self_image self) v);
  p ← lift (unpack2 t);
  x ← lift (index_or_raise (fst p : list Z) 0);
  ret (VInt x).

Definition _feature_color_object_maximum_intensity_y : M value :=
  self ← get_self;
  v ← _feature_color_object_maximum_intensity;
  t ← lift (where_equal (self_image self) v);
  p ← lift (unpack2 t);
  y ← lift (index_or_raise (snd p : list Z) 0);
  ret (VInt y).

Definition _feature_color_object_mean_intensity : M value :=
  m ← masked_image; mean_of m.
Definition _feature_color_object_median_absolute_deviation_intensity : M value :=
  m ← masked_image; lift (median_absolute_deviation (flatten m)).
Definition _feature_color_object_median_intensity : M value :=
  m ← masked_image; lift (np_median m).
Definition _feature_color_object_minimum_intensity : M value :=
  m ← masked_image; min_of m.
Definition _feature_color_object_quantile_1_intensity : M value :=
  m ← masked_image; lift (np_quantile m (1 # 4)).
Definition _feature_color_object_quantile_3_intensity : M value :=
  m ← masked_image; lift (np_quantile m (3 # 4)).
Definition _feature_color_object_standard_deviation_intensity : M value :=
  m ← masked_image; lift (np_std m).

(** Metadata: object *)

Definition _feature_metadata_object_index : M value :=
  self ← get_self; ret (VInt (self_object_index self)).

(** Shape *)

Definition _feature_shape_image_area : M value :=
  self ← get_self;
  let sh := shape (self_image self) in
  if self_multichannel self then
    ret (VInt (Z.of_nat (size_of (take (length sh - 1) sh))))
  else ret (VInt (Z.of_nat (size_of sh))).

(** [self.centroid[axis]] *)
Definition centroid_axis (axis : Z) : M value :=
  c ← centroid;
  a ← lift (as_float_array c);
  x ← lift (index_or_raise (data a) axis);
  ret (VFloat x).

Definition _feature_shape_object_centroid_x : M value := centroid_axis 0.
Definition _feature_shape_object_centroid_y : M value := centroid_axis 1.

Definition _feature_shape_object_equivalent_diameter : M value :=
  self ← get_self;
  let n := ndim (self_label self) in
  a ← area;
  a ← lift (as_int a);
  if decide (n = 0) then raise ZeroDivisionError
  else ret (root_over_pi (2 * Z.of_nat n * a) n).

Definition _feature_shape_object_euler_number : M value :=
  self ← get_self;
  lift (euler_number (self_label self) (ndim (self_label self))).

Definition _feature_shape_object_extent : M value :=
  a ← area;
  a ← lift (as_int a);
  self ← get_self;
  ret (VFloat (fdiv (inject_Z a) (inject_Z (Z.of_nat (size (self_label self)))))).

(** [self.spatial_moments[a, b, c]] *)
Definition spatial_moment (a b c : nat) : M value :=
  sm ← spatial_moments;
  sm ← lift (as_image sm);
  e ← lift (getitem_ints 0%Q sm [a; b; c]);
  match shape e with
  | [] => ret (VFloat (Fin (item 0%Q e [])))
  | _ => ret (VImage e)
  end.

(** The properties of the class that evaluate to a value, by name, in the
    order of the class body.  ([columns] and [_members] are properties too;
    they evaluate to lists of names and are defined below.) *)
Definition properties : list (string * M value) := [
  ("area", area);
  ("central_moments", central_moments);
  ("centroid", centroid);
  ("convex_hull", convex_hull);
  ("coordinates", coordinates);
  ("crop", crop);
  ("edge", edge);
  ("inertia_tensor", inertia_tensor_);
  ("inertia_tensor_eigenvalues", inertia_tensor_eigenvalues);
  ("local_centroid", local_centroid);
  ("mask", mask);
  ("masked", masked);
  ("spatial_moments", spatial_moments);
  ("_feature_color_image_integrated_intensity", _feature_color_image_integrated_intensity);
  ("_feature_color_image_maximum_intensity", _feature_color_image_maximum_intensity);
  ("_feature_color_image_mean_intensity", _feature_color_image_mean_intensity);
  ("_feature_color_image_median_absolute_deviation_intensity", _feature_color_image_median_absolute_deviation_intensity);
  ("_feature_color_image_median_intensity", _feature_color_image_median_intensity);
  ("_feature_color_image_minimum_intensity", _feature_color_image_minimum_intensity);
  ("_feature_color_image_quantile_1_intensity", _feature_color_image_quantile_1_intensity);
  ("_feature_color_image_quantile_3_intensity", _feature_color_image_quantile_3_intensity);
  ("_feature_color_image_standard_deviation_intensity", _feature_color_image_standard_deviation_intensity);
  ("_feature_color_object_edge_integrated_intensity", _feature_color_object_edge_integrated_intensity);
  ("_feature_color_object_edge_maximum_intensity", _feature_color_object_edge_maximum_intensity);
  ("_feature_color_object_edge_mean_intensity", _feature_color_object_edge_mean_intensity);
  ("_feature_color_object_edge_median_intensity", _feature_color_object_edge_median_intensity);
  ("_feature_color_object_edge_minimum_intensity", _feature_color_object_edge_minimum_intensity);
  ("_feature_color_object_edge_quantile_1_intensity", _feature_color_object_edge_quantile_1_intensity);
  ("_feature_color_object_edge_quantile_3_intensity", _feature_color_object_edge_quantile_3_intensity);
  ("_feature_color_object_edge_standard_deviation_intensity", _feature_color_object_edge_standard_deviation_intensity);
  ("_feature_color_object_center_mass_intensity_x", placeholder);
  ("_feature_color_object_center_mass_intensity_y", placeholder);
  ("_feature_color_object_integrated_intensity", _feature_color_object_integrated_intensity);
  ("_feature_color_object_mass_displacement", placeholder);
  ("_feature_color_object_maximum_intensity", _feature_color_object_maximum_intensity);
  ("_feature_color_object_maximum_intensity_x", _feature_color_object_maximum_intensity_x);
  ("_feature_color_object_maximum_intensity_y", _feature_color_object_maximum_intensity_y);
  ("_feature_color_object_mean_intensity", _feature_color_object_mean_intensity);
  ("_feature_color_object_median_absolute_deviation_intensity", _feature_color_object_median_absolute_deviation_intensity);
  ("_feature_color_object_median_intensity", _feature_color_object_median_intensity);
  ("_feature_color_object_minimum_intensity", _feature_color_object_minimum_intensity);
  ("_feature_color_object_quantile_1_intensity", _feature_color_object_quantile_1_intensity);
  ("_feature_color_object_quantile_3_intensity", _feature_color_object_quantile_3_intensity);
  ("_feature_color_object_standard_deviation_intensity", _feature_color_object_standard_deviation_intensity);
  ("_feature_location_object_neighborhood_angle", placeholder);
  ("_feature_location_object_neighborhood_closest_0_distance", placeholder);
  ("_feature_location_object_neighborhood_closest_0_object_index", placeholder);
  ("_feature_location_object_neighborhood_closest_1_distance", placeholder);
  ("_feature_location_object_neighborhood_closest_1_object_index", placeholder);
  ("_feature_location_object_neighborhood_closest_2_distance", placeholder);
  ("_feature_location_object_neighborhood_closest_2_object_index", placeholder);
  ("_feature_location_object_neighborhood_neighbors", placeholder);
  ("_feature_location_object_neighborhood_touching", placeholder);
  ("_feature_metadata_image_checksum", placeholder);
  ("_feature_metadata_image_filename", placeholder);
  ("_feature_metadata_layer_name", placeholder);
  ("_feature_metadata_layer_type", placeholder);
  ("_feature_metadata_object_index", _feature_metadata_object_index);
  ("_feature_shape_image_area", _feature_shape_image_area);
  ("_feature_shape_image_skeleton_branches", placeholder);
  ("_feature_shape_image_skeleton_endpoints", placeholder);
  ("_feature_shape_image_skeleton_length", placeholder);
  ("_feature_shape_image_skeleton_trunks", placeholder);
  ("_feature_shape_object_area", placeholder);
  ("_feature_shape_object_bounding_box_area", placeholder);
  ("_feature_shape_object_bounding_box_maximum_x", placeholder);
  ("_feature_shape_object_bounding_box_maximum_y", placeholder);
  ("_feature_shape_object_bounding_box_maximum_z", placeholder);
  ("_feature_shape_object_bounding_box_minimum_x", placeholder);
  ("_feature_shape_object_bounding_box_minimum_y", placeholder);
  ("_feature_shape_object_bounding_box_minimum_z", placeholder);
  ("_feature_shape_object_bounding_box_volume", placeholder);
  ("_feature_shape_object_central_moment_0_0_0", placeholder);
  ("_feature_shape_object_central_moment_0_0_1", placeholder);
  ("_feature_shape_object_central_moment_0_1_2", placeholder);
  ("_feature_shape_object_central_moment_0_1_3", placeholder);
  ("_feature_shape_object_central_moment_1_2_0", placeholder);
  ("_feature_shape_object_central_moment_1_2_1", placeholder);
  ("_feature_shape_object_central_moment_1_3_2", placeholder);
  ("_feature_shape_object_central_moment_1_3_3", placeholder);
  ("_feature_shape_object_central_moment_2_0_0", placeholder);
  ("_feature_shape_object_central_moment_2_0_1", placeholder);
  ("_feature_shape_object_central_moment_2_1_2", placeholder);
  ("_feature_shape_object_central_moment_2_1_3", placeholder);
  ("_feature_shape_object_central_moment_3_2_0", placeholder);
  ("_feature_shape_object_central_moment_3_2_1", placeholder);
  ("_feature_shape_object_central_moment_3_3_2", placeholder);
  ("_feature_shape_object_central_moment_3_3_3", placeholder);
  ("_feature_shape_object_centroid_x", _feature_shape_object_centroid_x);
  ("_feature_shape_object_centroid_y", _feature_shape_object_centroid_y);
  ("_feature_shape_object_centroid_z", placeholder);
  ("_feature_shape_object_compactness", placeholder);
  ("_feature_shape_object_eccentricity", placeholder);
  ("_feature_shape_object_equivalent_diameter", _feature_shape_object_equivalent_diameter);
  ("_feature_shape_object_euler_number", _feature_shape_object_euler_number);
  ("_feature_shape_object_extent", _feature_shape_object_extent);
  ("_feature_shape_object_form_factor", placeholder);
  ("_feature_shape_object_hu_moment_0", placeholder);
  ("_feature_shape_object_hu_moment_1", placeholder);
  ("_feature_shape_object_hu_moment_2", placeholder);
  ("_feature_shape_object_hu_moment_3", placeholder);
  ("_feature_shape_object_hu_moment_4", placeholder);
  ("_feature_shape_object_hu_moment_5", placeholder);
  ("_feature_shape_object_hu_moment_6", placeholder);
  ("_feature_shape_object_inertia_tensor_eigenvalues_x", placeholder);
  ("_feature_shape_object_inertia_tensor_eigenvalues_y", placeholder);
  ("_feature_shape_object_inertia_tensor_eigenvalues_z", placeholder);
  ("_feature_shape_object_inertia_tensor_x_x", placeholder);
  ("_feature_shape_object_inertia_tensor_x_y", placeholder);
  ("_feature_shape_object_inertia_tensor_x_z", placeholder);
  ("_feature_shape_object_inertia_tensor_y_x", placeholder);
  ("_feature_shape_object_inertia_tensor_y_y", placeholder);
  ("_feature_shape_object_inertia_tensor_y_z", placeholder);
  ("_feature_shape_object_inertia_tensor_z_x", placeholder);
  ("_feature_shape_object_inertia_tensor_z_y", placeholder);
  ("_feature_shape_object_inertia_tensor_z_z", placeholder);
  ("_feature_shape_object_major_axis_length", placeholder);
  ("_feature_shape_object_maximum_feret_diameter", placeholder);
  ("_feature_shape_object_maximum_radius", placeholder);
  ("_feature_shape_object_mean_radius", placeholder);
  ("_feature_shape_object_median_radius", placeholder);
  ("_feature_shape_object_minimum_feret_diameter", placeholder);
  ("_feature_shape_object_minor_axis_length", placeholder);
  ("_feature_shape_object_normalized_moment_x_y", placeholder);
  ("_feature_shape_object_orientation", placeholder);
  ("_feature_shape_object_perimeter", placeholder);
  ("_feature_shape_object_solidity", placeholder);
  ("_feature_shape_object_spatial_moment_0_0_0", spatial_moment 0 0 0);
  ("_feature_shape_object_spatial_moment_0_0_1", spatial_moment 0 0 1);
  ("_feature_shape_object_spatial_moment_0_0_2", spatial_moment 0 0 2);
  ("_feature_shape_object_spatial_moment_0_0_3", spatial_moment 0 0 3);
  ("_feature_shape_object_spatial_moment_0_1_0", spatial_moment 0 1 0);
  ("_feature_shape_object_spatial_moment_0_1_1", spatial_moment 0 1 1);
  ("_feature_shape_object_spatial_moment_0_1_2", spatial_moment 0 1 2);
  ("_feature_shape_object_spatial_moment_0_1_3", spatial_moment 0 1 3);
  ("_feature_shape_object_spatial_moment_0_2_0", spatial_moment 0 2 0);
  ("_feature_shape_object_spatial_moment_0_2_1", spatial_moment 0 2 1);
  ("_feature_shape_object_spatial_moment_0_2_2", spatial_moment 0 2 2);
  ("_feature_shape_object_spatial_moment_0_2_3", spatial_moment 0 2 3);
  ("_feature_shape_object_spatial_moment_0_3_0", spatial_moment 0 3 0);
  ("_feature_shape_object_spatial_moment_0_3_1", spatial_moment 0 3 1);
  ("_feature_shape_object_spatial_moment_0_3_2", spatial_moment 0 3 2);
  ("_feature_shape_object_spatial_moment_0_3_3", spatial_moment 0 3 3);
  ("_feature_shape_object_spatial_moment_1_0_0", spatial_moment 1 0 0);
  ("_feature_shape_object_spatial_moment_1_0_1", spatial_moment 1 0 1);
  ("_feature_shape_object_spatial_moment_1_0_2", spatial_moment 1 0 2);
  ("_feature_shape_object_spatial_moment_1_0_3", spatial_moment 1 0 3);
  ("_feature_shape_object_spatial_moment_1_1_0", spatial_moment 1 1 0);
  ("_feature_shape_object_spatial_moment_1_1_1", spatial_moment 1 1 1);
  ("_feature_shape_object_spatial_moment_1_1_2", spatial_moment 1 1 2);
  ("_feature_shape_object_spatial_moment_1_1_3", spatial_moment 1 1 3);
  ("_feature_shape_object_spatial_moment_1_2_0", spatial_moment 1 2 0);
  ("_feature_shape_object_spatial_moment_1_2_1", spatial_moment 1 2 1);
  ("_feature_shape_object_spatial_moment_1_2_2", spatial_moment 1 2 2);
  ("_feature_shape_object_spatial_moment_1_2_3", spatial_moment 1 2 3);
  ("_feature_shape_object_spatial_moment_1_3_0", spatial_moment 1 3 0);
  ("_feature_shape_object_spatial_moment_1_3_1", spatial_moment 1 3 1);
  ("_feature_shape_object_spatial_moment_1_3_2", spatial_moment 1 3 2);
  ("_feature_shape_object_spatial_moment_1_3_3", spatial_moment 1 3 3);
  ("_feature_shape_object_spatial_moment_2_0_0", spatial_moment 2 0 0);
  ("_feature_shape_object_spatial_moment_2_0_1", spatial_moment 2 0 1);
  ("_feature_shape_object_spatial_moment_2_0_2", spatial_moment 2 0 2);
  ("_feature_shape_object_spatial_moment_2_0_3", spatial_moment 2 0 3);
  ("_feature_shape_object_spatial_moment_2_1_0", spatial_moment 2 1 0);
  ("_feature_shape_object_spatial_moment_2_1_1", spatial_moment 2 1 1);
  ("_feature_shape_object_spatial_moment_2_1_2", spatial_moment 2 1 2);
  ("_feature_shape_object_spatial_moment_2_1_3", spatial_moment 2 1 3);
  ("_feature_shape_object_spatial_moment_2_2_0", spatial_moment 2 2 0);
  ("_feature_shape_object_spatial_moment_2_2_1", spatial_moment 2 2 1);
  ("_feature_shape_object_spatial_moment_2_2_2", spatial_moment 2 2 2);
  ("_feature_shape_object_spatial_moment_2_2_3", spatial_moment 2 2 3);
  ("_feature_shape_object_spatial_moment_2_3_0", spatial_moment 2 3 0);
  ("_feature_shape_object_spatial_moment_2_3_1", spatial_moment 2 3 1);
  ("_feature_shape_object_spatial_moment_2_3_2", spatial_moment 2 3 2);
  ("_feature_shape_object_spatial_moment_2_3_3", spatial_moment 2 3 3);
  ("_feature_shape_object_spatial_moment_3_0_0", spatial_moment 3 0 0);
  ("_feature_shape_object_spatial_moment_3_0_1", spatial_moment 3 0 1);
  ("_feature_shape_object_spatial_moment_3_0_2", spatial_moment 3 0 2);
  ("_feature_shape_object_spatial_moment_3_0_3", spatial_moment 3 0 3);
  ("_feature_shape_object_spatial_moment_3_1_0", spatial_moment 3 1 0);
  ("_feature_shape_object_spatial_moment_3_1_1", spatial_moment 3 1 1);
  ("_feature_shape_object_spatial_moment_3_1_2", spatial_moment 3 1 2);
  ("_feature_shape_object_spatial_moment_3_1_3", spatial_moment 3 1 3);
  ("_feature_shape_object_spatial_moment_3_2_0", spatial_moment 3 2 0);
  ("_feature_shape_object_spatial_moment_3_2_1", spatial_moment 3 2 1);
  ("_feature_shape_object_spatial_moment_3_2_2", spatial_moment 3 2 2);
  ("_feature_shape_object_spatial_moment_3_2_3", spatial_moment 3 2 3);
  ("_feature_shape_object_spatial_moment_3_3_0", spatial_moment 3 3 0);
  ("_feature_shape_object_spatial_moment_3_3_1", spatial_moment 3 3 1);
  ("_feature_shape_object_spatial_moment_3_3_2", spatial_moment 3 3 2);
  ("_feature_shape_object_spatial_moment_3_3_3", spatial_moment 3 3 3);
  ("_feature_shape_object_surface_area", placeholder);
  ("_feature_shape_object_volume", placeholder);
  ("_feature_shape_object_skeleton_endpoints", placeholder);
  ("_feature_shape_object_skeleton_branches", placeholder);
  ("_feature_shape_object_skeleton_length", placeholder);
  ("_feature_shape_object_skeleton_trunks", placeholder);
  ("_feature_texture_object_haralick_angular_second_moment", placeholder);
  ("_feature_texture_object_haralick_contrast", placeholder);
  ("_feature_texture_object_haralick_coorelation", placeholder);
  ("_feature_texture_object_haralick_sum_of_squares_variance", placeholder);
  ("_feature_texture_object_haralick_inverse_difference_moment", placeholder);
  ("_feature_texture_object_haralick_sum_average", placeholder);
  ("_feature_texture_object_haralick_sum_variance", placeholder);
  ("_feature_texture_object_haralick_sum_entropy", placeholder);
  ("_feature_texture_object_haralick_entropy", placeholder);
  ("_feature_texture_object_haralick_difference_variance", placeholder);
  ("_feature_texture_object_haralick_measure_of_correlation_0", placeholder);
  ("_feature_texture_object_haralick_measure_of_correlation_1", placeholder);
  ("_feature_texture_object_haralick_maximum_correlation_coefficient", placeholder)
].

(** [getattr(self, member)] for the name of a property. *)
Definition getattr (member : string) : M value :=
  match list_find (λ p, fst p = member) properties with
  | Some (_, (_, property)) => property
  | None => raise AttributeError
  end.

(** [inspect.getmembers] lists the properties of the class by name;
    [_members] keeps the names that start with [_feature_], sorted. *)
Definition _members : list string :=
  sorted (filter (λ k, String.prefix "_feature_" k = true)
            ("columns" :: "_members" :: properties.*1)).

Definition columns : list string := replace "_feature_" "" <$> _members.

(** ** The iterator *)

(** [Generator.__init__(label, image)] *)
Definition __init__ (label : ndarray Z) (image : ndarray Q) : result Generator :=
  objects ← find_objects label;
  object ← index_or_raise objects (1 - 1);
  Ok    {| self_cache := ∅;
           self_image := img_as_float32 image;
           self_label := label;
           self_multichannel := tuple_lt (shape label) (shape image);
           self_objects := objects;
           self_object_index := 1;
           self_object := object;
           self_volumetric := false;
           self_cropped := None;
           self_spatial_axes := seq 0 (ndim label) |}.

(** [Generator.__next__]: the lookup of the next object is the only
    statement inside the [try]; its [IndexError] becomes [StopIteration]. *)
Definition __next__ : M (list value) :=
  self ← get_self;
  match py_getitem (self_objects self) (self_object_index self - 1) with
  | None => raise StopIteration
  | Some object =>
      _ ← modify_self (with_object object);
      _ ← modify_self (λ g, with_object_index (self_object_index g + 1) g);
      mapM getattr _members
  end.

(** ** Using the generator *)

(** The row that [__next__] evaluates once it has advanced to [object]. *)
Definition evaluate_row (object : option (list slice)) (g : Generator)
  : outcome (list value) :=
  mapM getattr _members
    (with_object_index (self_object_index g + 1) (with_object object g)).

(** The generator after [n] calls of [next()], whatever they returned or
    raised. *)
Fixpoint after_calls (n : nat) (g : Generator) : Generator :=
  match n with
  | 0 => g
  | S n' => after (__next__ (after_calls n' g))
  end.

(** What a caller does with a generator: it calls [next()], or it reads a
    property. *)
Inductive action : Type :=
| Advance
| Read (member : string).

Definition perform (a : action) (g : Generator) : Generator :=
  match a with
  | Advance => after (__next__ g)
  | Read member => after (getattr member g)
  end.

(** The states of a generator constructed from [label] and [image]. *)
Definition reachable (label : ndarray Z) (image : ndarray Q) (g : Generator) : Prop :=
  ∃ g0 actions,
    __init__ label image = Ok g0 ∧ g = foldl (λ g a, perform a g) g0 actions.

(** The value of a row in the column of a given name. *)
Definition column (name : string) (row : list value) : option value :=
  p ← list_find (λ c, c = name) columns; row !! p.1.

(** The names of the properties that are wrapped by [cache]. *)
Definition cached_properties : list string :=
  ["area"; "central_moments"; "centroid"; "convex_hull"; "coordinates"; "crop";
   "edge"; "inertia_tensor"; "inertia_tensor_eigenvalues"; "local_centroid";
   "mask"; "masked"; "spatial_moments";
   "_feature_color_object_maximum_intensity"].

End Generator.

(** ** An executable instance of the libraries

    Exact rational versions of the routines that the features of the
    examples below call, so that the generator can be run on concrete
    images.  The standard deviation and the root are rounded to six
    decimals; the routines that no feature calls are not provided.  The
    general theorems hold for every instance of [Library]. *)

Module Reference.

Definition Qfloor (q : Q) : Z := (Qnum q / Z.pos (Qden q))%Z.

(** [numpy.rint]: rounding to the nearest integer, ties to even. *)
Definition rint (q : Q) : Z :=
  let f := Qfloor q in
  let r := Qred (q - inject_Z f) in
  if Qeq_bool r (1 # 2) then (if Z.even f then f else f + 1)%Z
  else if Qle_bool r (1 # 2) then f else (f + 1)%Z.

(** [skimage.img_as_ubyte] on a float image: values outside [-1, 1] are a
    [ValueError]; the others are scaled by 255, rounded, and clipped to
    [0, 255]. *)
Definition img_as_ubyte (a : ndarray Q) : result (ndarray Z) :=
  if forallb (λ q, Qle_bool (-1) q && Qle_bool q 1) (data a) then
    Ok (amap (λ q, Z.max 0 (Z.min (rint (q * 255)) 255)) a)
  else Raise ValueError.

(** [skimage.measure.moments]: the raw moments
    [M[p] = sum over idx of prod_k idx_k ^ p_k * image[idx]]. *)
Definition monomial (idx p : list nat) : Z :=
  foldr Z.mul 1%Z (zip_with (λ i e, Z.of_nat i ^ Z.of_nat e)%Z idx p).

Definition moments (image : ndarray Z) (order : nat) : result (ndarray Q) :=
  Ok (build (replicate (ndim image) (S order)) (λ p,
        inject_Z (Zsum ((λ idx, monomial idx p * item 0%Z image idx)%Z
                          <$> indices_of (shape image))))).

(** [skimage.segmentation.find_boundaries(mask, mode="outer")] on a mask:
    the background elements that have a foreground neighbour along an
    axis. *)
Definition neighbours (sh idx : list nat) : list (list nat) :=
  k ← seq 0 (length idx);
  let i := default 0 (idx !! k) in
  ((if decide (0 < i) then [<[k := i - 1]> idx] else [])
   ++ (if decide (S i < default 0 (sh !! k)) then [<[k := S i]> idx] else []))%list.

Definition find_boundaries_outer (m : ndarray bool) : result (ndarray bool) :=
  Ok (build (shape m) (λ idx,
        negb (item false m idx)
        && existsb (item false m) (neighbours (shape m) idx))).

(** [skimage.measure.euler_number] of a two-dimensional image, by counting
    the 2 x 2 windows of the zero-padded image with one, three and two
    diagonal foreground elements; other ranks are not provided. *)
Definition euler_number (a : ndarray Z) (connectivity : nat) : result value :=
  match shape a with
  | [h; w] =>
      let fg (r c : nat) : nat :=
        let x := item 0%Z a [r - 1; c - 1] in
        if decide (1 ≤ r ≤ h ∧ 1 ≤ c ≤ w) then
          (if bool_decide (0 < x)%Z then 1 else 0)
        else 0 in
      let windows := r ← seq 0 (S h); (λ c, (r, c)) <$> seq 0 (S w) in
      let count (f : nat → nat → nat → nat → bool) : Z :=
        Z.of_nat (length (filter (λ '(r, c),
          f (fg r c) (fg r (S c)) (fg (S r) c) (fg (S r) (S c)) = true) windows)) in
      let q1 := count (λ a b c d, bool_decide (a + b + c + d = 1)) in
      let q3 := count (λ a b c d, bool_decide (a + b + c + d = 3)) in
      let qd := count (λ a b c d, bool_decide (a + b + c + d = 2 ∧ a = d)) in
      let diagonal := if decide (connectivity = 1) then (2 * qd)%Z else (- 2 * qd)%Z in
      Ok (VInt ((q1 - q3 + diagonal) / 4)%Z)
  | _ => Raise NotImplementedError
  end.

Definition Q_le (a b : Q) : Prop := Qle_bool a b = true.

#[export] Instance Q_le_dec a b : Decision (Q_le a b).
Proof. unfold Q_le. apply _. Defined.

Definition Qsorted (l : list Q) : list Q := merge_sort Q_le l.

(** Linear interpolation in a sorted list at position [q * (n - 1)]. *)
Definition quantile_of (l : list Q) (q : Q) : npfloat :=
  match Qsorted l with
  | [] => NaN
  | x :: _ as s =>
      let pos := (q * inject_Z (Z.of_nat (length s - 1)))%Q in
      let lo := Z.to_nat (Qfloor pos) in
      let xlo := default x (s !! lo) in
      let xhi := default xlo (s !! S lo) in
      Fin (Qred (xlo + (pos - inject_Z (Z.of_nat lo)) * (xhi - xlo)))
  end.

Definition median_of (l : list Q) : npfloat := quantile_of l (1 # 2).

Definition np_median (a : ndarray Q) : result value :=
  Ok (VFloat (median_of (data a))).

Definition np_quantile (a : ndarray Q) (q : Q) : result value :=
  Ok (VFloat (quantile_of (data a) q)).

(** [scipy.stats.median_absolute_deviation] with its default scale
    [1.4826]. *)
Definition median_absolute_deviation (a : ndarray Q) : result value :=
  match median_of (data a) with
  | Fin m =>
      match median_of ((λ x, Qabs (x - m)) <$> data a) with
      | Fin d => Ok (VFloat (Fin (Qred ((7413 # 5000) * d))))
      | x => Ok (VFloat x)
      end
  | x => Ok (VFloat x)
  end.

(** The largest [r] with [r ^ n ≤ x], by bisection. *)
Fixpoint bisect (fuel : nat) (n : nat) (x lo hi : Z) : Z :=
  match fuel with
  | 0 => lo
  | S fuel' =>
      if decide (hi ≤ lo + 1)%Z then lo
      else
        let mid := ((lo + hi) / 2)%Z in
        if decide (mid ^ Z.of_nat n ≤ x)%Z then bisect fuel' n x mid hi
        else bisect fuel' n x lo mid
  end.

(** The [n]-th root of a non-negative rational, rounded down to six
    decimals. *)
Definition root6 (n : nat) (q : Q) : Q :=
  let scaled := Qfloor (q * inject_Z (10 ^ (6 * Z.of_nat n))) in
  Qred (bisect 200 n scaled 0 (scaled + 2) # 1000000).

Definition np_std (a : ndarray Q) : result value :=
  match np_mean a with
  | Fin m =>
      match np_mean (amap (λ x, (x - m) * (x - m))%Q a) with
      | Fin v => Ok (VFloat (Fin (root6 2 v)))
      | x => Ok (VFloat x)
      end
  | x => Ok (VFloat x)
  end.

Definition root_over_pi (x : Z) (n : nat) : value :=
  if decide (0 ≤ x)%Z then
    VFloat (Fin (root6 n (inject_Z x * (1000000000000000 # 3141592653589793))))
  else VFloat NaN.

End Reference.

(** ** Example images *)

(** A 1 x 2 label image with the two objects 1 and 2, one pixel each. *)
Definition two_label : ndarray Z := NdArray [1; 2] [1; 2]%Z.
Definition two_image : ndarray Q := NdArray [1; 2] [1 # 2; 1 # 4]%Q.

(** A 2 x 2 image with one object in the lower right corner and a second
    nonzero intensity in the upper left corner. *)
Definition corner_label : ndarray Z := NdArray [2; 2] [0; 0; 0; 1]%Z.
Definition corner_image : ndarray Q := NdArray [2; 2] [1 # 2; 0; 0; 1 # 4]%Q.

(** A one-pixel object whose intensity is zero. *)
Definition dark_label : ndarray Z := NdArray [1; 1] [1]%Z.

(** A one-dimensional intensity image of three elements, to go with the
    1 x 1 label image [dark_label]. *)
Definition line_image : ndarray Q := NdArray [3] [1 # 2; 1 # 2; 1 # 2]%Q.

(** A three-dimensional, one-voxel object. *)
Definition cube_label : ndarray Z := NdArray [1; 1; 1] [1]%Z.
Definition cube_image : ndarray Q := NdArray [1; 1; 1] [1 # 2]%Q.


(** The generators that [__init__] constructs from them. *)

(** Two objects: the pixels (0, 0) and (0, 1). *)
Definition two_start : Generator :=
  {| self_cache := ∅;
     self_image := two_image;
     self_label := two_label;
     self_multichannel := false;
     self_objects := [Some [Slice 0 1; Slice 0 1]; Some [Slice 0 1; Slice 1 2]];
     self_object_index := 1;
     self_object := Some [Slice 0 1; Slice 0 1];
     self_volumetric := false;
     self_cropped := None;
     self_spatial_axes := [0; 1] |}.

(** One object: the pixel (1, 1). *)
Definition corner_start : Generator :=
  {| self_cache := ∅;
     self_image := corner_image;
     self_label := corner_label;
     self_multichannel := false;
     self_objects := [Some [Slice 1 2; Slice 1 2]];
     self_object_index := 1;
     self_object := Some [Slice 1 2; Slice 1 2];
     self_volumetric := false;
     self_cropped := None;
     self_spatial_axes := [0; 1] |}.


(** One object: the voxel (0, 0, 0). *)
Definition cube_start : Generator :=
  {| self_cache := ∅;
     self_image := cube_image;
     self_label := cube_label;
     self_multichannel := false;
     self_objects := [Some [Slice 0 1; Slice 0 1; Slice 0 1]];
     self_object_index := 1;
     self_object := Some [Slice 0 1; Slice 0 1; Slice 0 1];
     self_volumetric := false;
     self_cropped := None;
     self_spatial_axes := [0; 1; 2] |}.


(** ** Arrays: basic facts *)

Lemma length_indices_of (sh : list nat) : length (indices_of sh) = size_of sh.
Proof.
  induction sh as [|n sh IH]; [done|].
  cbn [indices_of size_of foldr]. fold (size_of sh). rewrite <- IH.
  generalize 0 as from. induction n as [|n IHn]; intros from; [done|].
  cbn. rewrite length_app, length_fmap, IHn. done.
Qed.

Lemma build_wf {A} (sh : list nat) (f : list nat → A) : wf (build sh f).
Proof. unfold wf, build. cbn. by rewrite length_fmap, length_indices_of. Qed.

Lemma reference_img_as_ubyte_shape (a : ndarray Q) (b : ndarray Z) :
  Reference.img_as_ubyte a = Ok b → shape b = shape a.
Proof.
  unfold Reference.img_as_ubyte. case_match; [|done].
  intros [= <-]. done.
Qed.

Lemma reference_moments_shape (a : ndarray Z) (order : nat) (m : ndarray Q) :
  Reference.moments a order = Ok m →
  shape m = replicate (ndim a) (S order) ∧ wf m.
Proof. intros [= <-]. split; [done | apply build_wf]. Qed.

#[export] Instance reference_library : Library := {|
  img_as_float32 := id;
  img_as_ubyte := Reference.img_as_ubyte;
  moments := Reference.moments;
  moments_central := λ _ _ _, Raise NotImplementedError;
  inertia_tensor := λ _ _, Raise NotImplementedError;
  inertia_tensor_eigvals := λ _ _, Raise NotImplementedError;
  convex_hull_image := λ _, Raise NotImplementedError;
  find_boundaries_outer := Reference.find_boundaries_outer;
  euler_number := Reference.euler_number;
  median_absolute_deviation := Reference.median_absolute_deviation;
  np_median := Reference.np_median;
  np_quantile := Reference.np_quantile;
  np_std := Reference.np_std;
  root_over_pi := Reference.root_over_pi;
  img_as_ubyte_shape := reference_img_as_ubyte_shape;
  moments_shape := reference_moments_shape
|}.

(** ** Reasoning about methods *)

Lemma bind_returned {A B} (m : M A) (k : A → M B) (g : Generator) :
  returned ((m ≫= k) g) =
  match returned (m g) with
  | Ok a => returned (k a (after (m g)))
  | Raise e => Raise e
  end.
Proof. unfold mbind, M_bind, bind. by destruct (returned (m g)). Qed.

Lemma bind_after {A B} (m : M A) (k : A → M B) (g : Generator) :
  after ((m ≫= k) g) =
  match returned (m g) with
  | Ok a => after (k a (after (m g)))
  | Raise e => after (m g)
  end.
Proof. unfold mbind, M_bind, bind. by destruct (returned (m g)). Qed.

Lemma bind_invoked {A B} (m : M A) (k : A → M B) (g : Generator) :
  invoked ((m ≫= k) g) =
  match returned (m g) with
  | Ok a => (invoked (m g) ++ invoked (k a (after (m g))))%list
  | Raise e => invoked (m g)
  end.
Proof. unfold mbind, M_bind, bind. by destruct (returned (m g)). Qed.

Lemma bind_get_self {A} (k : Generator → M A) (g : Generator) :
  (get_self ≫= k) g = k g g.
Proof.
  unfold mbind, M_bind, bind, get_self. cbn [returned after invoked].
  by destruct (k g g).
Qed.

Lemma bind_modify_self {A} (f : Generator → Generator) (k : unit → M A)
    (g : Generator) :
  (modify_self f ≫= k) g = k () (f g).
Proof.
  unfold mbind, M_bind, bind, modify_self. cbn [returned after invoked].
  by destruct (k () (f g)).
Qed.

(** [generator.cache[name] = v] *)
Definition store (name : string) (v : value) (g : Generator) : Generator :=
  with_cache (<[name := v]> (self_cache g)) g.

(** The two paths through the decorator. *)
Lemma cache_hit (name : string) (wrapped : M value) (g : Generator) (v : value) :
  self_cache g !! name = Some v →
  cache name wrapped g = mkOutcome (Ok v) g [].
Proof.
  intros Hv. unfold cache, mbind, M_bind, bind. cbn.
  destruct (decide (is_Some (self_cache g !! name))) as [_|[]]; [|by eexists].
  cbn. by rewrite Hv.
Qed.

Lemma cache_miss (name : string) (wrapped : M value) (g : Generator) :
  self_cache g !! name = None →
  cache name wrapped g =
  match returned (wrapped g) with
  | Ok v => mkOutcome (Ok v) (store name v (after (wrapped g)))
              (name :: invoked (wrapped g))
  | Raise e => mkOutcome (Raise e) (after (wrapped g)) (name :: invoked (wrapped g))
  end.
Proof.
  intros Hv. unfold cache, mbind, M_bind, bind. cbn.
  destruct (decide (is_Some (self_cache g !! name))) as [[? Hs]|_]; [congruence|].
  cbn. destruct (returned (wrapped g)); cbn; [|done].
  rewrite lookup_insert_eq. cbn. by rewrite !app_nil_r.
Qed.

(** A method respects a relation between the generator before and after. *)
Definition respects (R : relation Generator) {A} (m : M A) : Prop :=
  ∀ g, R g (after (m g)).

Section respects.
Context (R : relation Generator) `{!PreOrder R}.

Lemma respects_ret {A} (a : A) : respects R (mret a).
Proof. intros g. cbn. reflexivity. Qed.

Lemma respects_raise {A} (e : exn) : respects R (raise (A:=A) e).
Proof. intros g. cbn. reflexivity. Qed.

Lemma respects_lift {A} (r : result A) : respects R (lift r).
Proof. intros g. cbn. reflexivity. Qed.

Lemma respects_get_self : respects R get_self.
Proof. intros g. cbn. reflexivity. Qed.

Lemma respects_note (name : string) : respects R (note name).
Proof. intros g. cbn. reflexivity. Qed.

Lemma respects_bind {A B} (m : M A) (k : A → M B) :
  respects R m → (∀ a, respects R (k a)) → respects R (m ≫= k).
Proof.
  intros Hm Hk g. rewrite bind_after.
  destruct (returned (m g)); [|apply Hm].
  etrans; [apply Hm | apply Hk].
Qed.

Lemma respects_mapM {A B} (f : A → M B) (l : list A) :
  Forall (λ x, respects R (f x)) l → respects R (mapM f l).
Proof.
  induction 1 as [|x l Hx _ IH]; cbn [mapM]; [apply respects_ret|].
  apply respects_bind; [done|]. intros y.
  apply respects_bind; [done|]. intros ys. apply respects_ret.
Qed.

(** The decorator respects [R] when the wrapped function does and the
    store that follows it continues [R]. *)
Lemma respects_cache (name : string) (wrapped : M value) :
  respects R wrapped →
  (∀ g v, self_cache g !! name = None → returned (wrapped g) = Ok v →
          R g (store name v (after (wrapped g)))) →
  respects R (cache name wrapped).
Proof.
  intros Hw Hstore g.
  destruct (self_cache g !! name) as [v|] eqn:Hv.
  - rewrite (cache_hit _ _ _ _ Hv). cbn. reflexivity.
  - rewrite (cache_miss _ _ _ Hv).
    destruct (returned (wrapped g)) as [v|e] eqn:Hr; cbn; [by apply Hstore|apply Hw].
Qed.

End respects.

(** ** What evaluating a property may change *)

(** Everything but the cache is kept, and the cache only grows. *)
Record extends (g g' : Generator) : Prop := {
  extends_attributes : g' = with_cache (self_cache g') g;
  extends_cache : self_cache g ⊆ self_cache g'
}.

#[export] Instance extends_preorder : PreOrder extends.
Proof.
  split.
  - intros g. split; [by destruct g|done].
  - intros g1 g2 g3 [H12 S12] [H23 S23]. split; [|by etrans].
    rewrite H23, H12. by destruct g1.
Qed.

Lemma extends_store (name : string) (v : value) (g g1 : Generator) :
  self_cache g !! name = None → extends g g1 → extends g (store name v g1).
Proof.
  intros Hn [Ha Hc]. split.
  - unfold store. rewrite Ha. by destruct g.
  - cbn. by apply insert_subseteq_r.
Qed.

(** The entry of the cache under [k] is left as it is. *)
Definition untouched (k : string) : relation Generator :=
  λ g g', self_cache g' !! k = self_cache g !! k.

#[export] Instance untouched_preorder k : PreOrder (untouched k).
Proof. split; [by intros g|]. intros g1 g2 g3 H1 H2. unfold untouched in *. congruence. Qed.

Section validity.
Context `{Library}.

(** What the cache holds under [area] and [spatial_moments] once they have
    been computed, together with the value of the [volumetric] flag. *)
Record valid (g : Generator) : Prop := {
  valid_volumetric : self_volumetric g = false;
  valid_area : ∀ v, self_cache g !! "area" = Some v →
    v = VInt (np_sum_int (self_label g));
  valid_spatial_moments : ∀ v, self_cache g !! "spatial_moments" = Some v →
    ∃ mk u m t,
      self_cache g !! "masked" = Some (VImage mk) ∧
      img_as_ubyte mk = Ok u ∧ moments u 3 = Ok m ∧
      setitem_first 0%Q (zeros [4; 4; 4]) m = Ok t ∧ v = VImage t
}.

(** One evaluation step: the generator is extended and stays valid. *)
Definition step : relation Generator :=
  λ g g', extends g g' ∧ (valid g → valid g').

#[export] Instance step_preorder : PreOrder step.
Proof.
  split.
  - intros g. split; [reflexivity|done].
  - intros g1 g2 g3 [E12 V12] [E23 V23]. split; [by etrans|auto].
Qed.

Lemma cache_returned (name : string) (wrapped : M value) (g : Generator) (v : value) :
  returned (cache name wrapped g) = Ok v →
  self_cache (after (cache name wrapped g)) !! name = Some v.
Proof.
  destruct (self_cache g !! name) as [x|] eqn:Hx.
  - rewrite (cache_hit _ _ _ _ Hx). cbn. by intros [= <-].
  - rewrite (cache_miss _ _ _ Hx).
    destruct (returned (wrapped g)); cbn; [|done].
    intros [= <-]. apply lookup_insert_eq.
Qed.


Lemma untouched_cache_rule (k name : string) (wrapped : M value) :
  name ≠ k → respects (untouched k) wrapped →
  respects (untouched k) (cache name wrapped).
Proof.
  intros Hne Hw. apply respects_cache; [apply _|done|].
  intros g v _ _. unfold untouched, store. cbn.
  rewrite lookup_insert_ne by done. apply Hw.
Qed.

Lemma step_cache_rule (name : string) (wrapped : M value) :
  name ≠ "area" → name ≠ "spatial_moments" → name ≠ "masked" →
  respects step wrapped → respects step (cache name wrapped).
Proof.
  intros N1 N2 N3 Hw. apply respects_cache; [apply _|done|].
  intros g v Hn _. destruct (Hw g) as [He Hv]. split.
  - by apply extends_store.
  - intros Hg. destruct (Hv Hg) as [V1 V2 V3]. split; cbn.
    + done.
    + rewrite lookup_insert_ne by done. apply V2.
    + rewrite lookup_insert_ne by done. intros x Hx.
      destruct (V3 x Hx) as (mk & u & m & t & ? & ?).
      exists mk, u, m, t. by rewrite lookup_insert_ne.
Qed.

Create HintDb engine.

Ltac respects_tac :=
  repeat first
    [ assumption
    | solve [auto with engine]
    | apply respects_ret | apply respects_raise | apply respects_lift
    | apply respects_get_self | apply respects_note
    | progress (lazy zeta)
    | match goal with
      | |- PreOrder _ => apply _
      | |- respects _ (match ?x with _ => _ end) => destruct x
      | |- respects _ (_ ≫= _) => apply respects_bind; [apply _| |intros ?]
      end ].

(** *** The derived quantities *)

Ltac cached_tac := apply step_cache_rule; [done..|respects_tac].

Lemma step_area : respects step area.
Proof.
  apply respects_cache; [apply _|respects_tac|].
  intros g v Hn Hr. cbn in Hr. injection Hr as <-. cbn. split.
  - apply extends_store; [done|reflexivity].
  - intros [V1 V2 V3]. split; cbn; [done|..].
    + intros v. rewrite lookup_insert_eq. by intros [= <-].
    + rewrite lookup_insert_ne by done. intros x Hx.
      destruct (V3 x Hx) as (mk & u & m & t & ? & ?).
      exists mk, u, m, t. by rewrite lookup_insert_ne.
Qed.

Lemma step_coordinates : respects step coordinates.
Proof. cached_tac. Qed.
#[local] Hint Resolve step_area step_coordinates : engine.

Lemma step_centroid : respects step centroid.
Proof. cached_tac. Qed.

Lemma step_crop : respects step crop.
Proof. cached_tac. Qed.

Lemma step_mask : respects step mask.
Proof. cached_tac. Qed.
#[local] Hint Resolve step_centroid step_crop step_mask : engine.

Lemma untouched_mask (k : string) : k ≠ "mask" → respects (untouched k) mask.
Proof. intros Hk. apply untouched_cache_rule; [done|]. respects_tac. Qed.

Lemma step_convex_hull : respects step convex_hull.
Proof. cached_tac. Qed.

Lemma step_edge : respects step edge.
Proof. cached_tac. Qed.
#[local] Hint Resolve step_convex_hull step_edge : engine.

Lemma step_masked : respects step masked.
Proof.
  unfold masked.
  match goal with |- respects _ (cache _ ?w) => set (wrapped := w) end.
  assert (Hs : respects step wrapped) by (unfold wrapped; respects_tac).
  assert (Hu : respects (untouched "spatial_moments") wrapped).
  { unfold wrapped. pose proof (untouched_mask "spatial_moments"). respects_tac. }
  apply respects_cache; [apply _|done|].
  intros g v Hn Hr. destruct (Hs g) as [He Hv]. split.
  - by apply extends_store.
  - intros Hg. destruct (Hv Hg) as [V1 V2 V3]. split; cbn.
    + done.
    + rewrite lookup_insert_ne by done. apply V2.
    + rewrite lookup_insert_ne by done. intros x Hx.
      rewrite (Hu g) in Hx.
      destruct (valid_spatial_moments _ Hg x Hx) as (mk & ? & ? & ? & Hm & _).
      congruence.
Qed.
#[local] Hint Resolve step_masked : engine.

(** What the function wrapped as [spatial_moments] returns. *)
Lemma spatial_moments_wrapped (g : Generator) (v : value) :
  self_volumetric g = false →
  returned ((mk ← masked;
             mk ← lift (as_image mk);
             u ← lift (img_as_ubyte mk);
             m ← lift (moments u 3);
             self ← get_self;
             if negb (self_volumetric self) then
               v ← lift (setitem_first 0%Q (zeros [4; 4; 4]) m);
               ret (VImage v)
             else ret (VImage m)) g) = Ok v →
  ∃ mk u m t,
    returned (masked g) = Ok (VImage mk) ∧
    img_as_ubyte mk = Ok u ∧ moments u 3 = Ok m ∧
    setitem_first 0%Q (zeros [4; 4; 4]) m = Ok t ∧ v = VImage t.
Proof.
  intros Hvol. rewrite bind_returned.
  destruct (returned (masked g)) as [x|] eqn:Hx; [|done].
  rewrite bind_returned. cbn [lift returned after].
  destruct x as [| |mk| | | |]; cbn [as_image]; try done.
  rewrite bind_returned. cbn [lift returned after].
  destruct (img_as_ubyte mk) as [u|] eqn:Hu; [|done].
  rewrite bind_returned. cbn [lift returned after].
  destruct (moments u 3) as [m|] eqn:Hm; [|done].
  rewrite bind_returned. cbn [get_self returned after].
  assert (Hvol' : self_volumetric (after (masked g)) = false).
  { destruct (step_masked g) as [[Ha _] _]. rewrite Ha. by destruct g. }
  rewrite Hvol'. cbn [negb]. rewrite bind_returned. cbn [lift returned after].
  destruct (setitem_first 0%Q (zeros [4; 4; 4]) m) as [t|] eqn:Ht; [|done].
  cbn. intros [= <-]. by exists mk, u, m, t.
Qed.

Lemma step_spatial_moments : respects step spatial_moments.
Proof.
  unfold spatial_moments.
  match goal with |- respects _ (cache _ ?w) => set (wrapped := w) end.
  assert (Hs : respects step wrapped) by (unfold wrapped; respects_tac).
  apply respects_cache; [apply _|done|].
  intros g v Hn Hr. destruct (Hs g) as [He Hv]. split.
  - by apply extends_store.
  - intros Hg. destruct (Hv Hg) as [V1 V2 V3].
    destruct (spatial_moments_wrapped g v (valid_volumetric _ Hg) Hr)
      as (mk & u & m & t & Hmk & Hu & Hm & Ht & ->).
    assert (Hc : self_cache (after (wrapped g)) !! "masked" = Some (VImage mk)).
    { apply cache_returned in Hmk.
      destruct He as [_ He]. eapply lookup_weaken; [exact Hmk|].
      (* the rest of the wrapped function leaves the generator alone *)
      unfold wrapped. rewrite bind_after.
      destruct (returned (masked g)); [|done].
      repeat (rewrite bind_after; cbn [lift get_self returned after];
              first [ case_match; [|done] | idtac ]).
      done. }
    split; cbn.
    + done.
    + rewrite lookup_insert_ne by done. apply V2.
    + rewrite lookup_insert_eq. intros x [= <-].
      exists mk, u, m, t. by rewrite lookup_insert_ne.
Qed.
#[local] Hint Resolve step_spatial_moments : engine.

Lemma step_local_centroid : respects step local_centroid.
Proof. cached_tac. Qed.
#[local] Hint Resolve step_local_centroid : engine.

Lemma step_central_moments : respects step central_moments.
Proof. cached_tac. Qed.
#[local] Hint Resolve step_central_moments : engine.

Lemma step_inertia_tensor : respects step inertia_tensor_.
Proof. cached_tac. Qed.
#[local] Hint Resolve step_inertia_tensor : engine.

Lemma step_inertia_tensor_eigenvalues : respects step inertia_tensor_eigenvalues.
Proof. cached_tac. Qed.

(** *** The features *)

Lemma step_sum_of (a : ndarray Q) : respects step (sum_of a).
Proof. unfold sum_of. respects_tac. Qed.

Lemma step_mean_of (a : ndarray Q) : respects step (mean_of a).
Proof. unfold mean_of. respects_tac. Qed.

Lemma step_max_of (a : ndarray Q) : respects step (max_of a).
Proof. unfold max_of. respects_tac. Qed.

Lemma step_min_of (a : ndarray Q) : respects step (min_of a).
Proof. unfold min_of. respects_tac. Qed.
#[local] Hint Resolve step_inertia_tensor_eigenvalues
  step_sum_of step_mean_of step_max_of step_min_of : engine.

Lemma step_edge_image : respects step edge_image.
Proof. unfold edge_image. respects_tac. Qed.

Lemma step_masked_image : respects step masked_image.
Proof. unfold masked_image. respects_tac. Qed.
#[local] Hint Resolve step_edge_image step_masked_image : engine.

Lemma step_maximum_intensity : respects step _feature_color_object_maximum_intensity.
Proof. cached_tac. Qed.
#[local] Hint Resolve step_maximum_intensity : engine.

Lemma step_centroid_axis (axis : Z) : respects step (centroid_axis axis).
Proof. unfold centroid_axis. respects_tac. Qed.

Lemma step_spatial_moment (a b c : nat) : respects step (spatial_moment a b c).
Proof. unfold spatial_moment. respects_tac. Qed.

Lemma step_placeholder : respects step placeholder.
Proof. unfold placeholder. respects_tac. Qed.
#[local] Hint Resolve step_centroid_axis step_spatial_moment step_placeholder : engine.

Ltac head_of t := lazymatch t with ?f _ => head_of f | _ => t end.

Ltac feature_tac :=
  first
    [ solve [auto with engine]
    | match goal with |- respects _ ?f => let h := head_of f in unfold h end;
      respects_tac ].

(** Reading any property is an evaluation step. *)
Lemma step_properties : Forall (λ p, respects step p.2) properties.
Proof. unfold properties. repeat (constructor; [cbn [snd]; feature_tac|]). constructor. Qed.

Lemma step_getattr (member : string) : respects step (getattr member).
Proof.
  unfold getattr. destruct (list_find _ _) as [[i [name property]]|] eqn:Hf.
  - apply list_find_Some in Hf as (Hf & _ & _).
    eapply (Forall_lookup_1 _ _ _ _ step_properties Hf).
  - apply respects_raise. apply _.
Qed.

(** *** Advancing *)

(** What a call of [__next__] may change: the images and the list of
    objects are kept, the cache only grows, and validity is kept. *)
Record advances (g g' : Generator) : Prop := {
  advances_label : self_label g' = self_label g;
  advances_image : self_image g' = self_image g;
  advances_objects : self_objects g' = self_objects g;
  advances_cache : self_cache g ⊆ self_cache g';
  advances_valid : valid g → valid g'
}.

#[export] Instance advances_preorder : PreOrder advances.
Proof.
  split.
  - intros g. by split.
  - intros g1 g2 g3 [] []. split; try congruence; [by etrans|auto].
Qed.

Lemma step_advances (g g' : Generator) : step g g' → advances g g'.
Proof.
  intros [[Ha Hc] Hv]. split; try done; rewrite Ha; by destruct g.
Qed.

Lemma respects_weaken (R R' : relation Generator) {A} (m : M A) :
  (∀ g g', R g g' → R' g g') → respects R m → respects R' m.
Proof. intros HR Hm g. apply HR, Hm. Qed.

Lemma respects_modify_self (R : relation Generator) (f : Generator → Generator) :
  (∀ g, R g (f g)) → respects R (modify_self f).
Proof. intros Hf g. apply Hf. Qed.

Lemma valid_attributes (g g' : Generator) :
  self_cache g' = self_cache g → self_label g' = self_label g →
  self_volumetric g' = self_volumetric g → valid g → valid g'.
Proof.
  intros Hc Hl Hv [V1 V2 V3]. split; rewrite ?Hc, ?Hl, ?Hv; done.
Qed.

Lemma advances_next : respects advances __next__.
Proof.
  unfold __next__.
  apply respects_bind; [apply _|apply respects_get_self; apply _|]. intros self.
  destruct (py_getitem _ _) as [object|]; [|apply respects_raise; apply _].
  apply respects_bind; [apply _| |intros _].
  { apply respects_modify_self. intros g. split; try done.
    by apply valid_attributes. }
  apply respects_bind; [apply _| |intros _].
  { apply respects_modify_self. intros g. split; try done.
    by apply valid_attributes. }
  apply respects_mapM; [apply _|]. apply Forall_forall. intros member _.
  eapply respects_weaken; [apply step_advances|apply step_getattr].
Qed.

Lemma advances_getattr (member : string) : respects advances (getattr member).
Proof. eapply respects_weaken; [apply step_advances|apply step_getattr]. Qed.

(** *** Reachable states *)

Lemma init_inv (label : ndarray Z) (image : ndarray Q) (g0 : Generator) :
  __init__ label image = Ok g0 →
  ∃ objects object,
    find_objects label = Ok objects ∧ objects !! 0 = Some object ∧
    g0 = {| self_cache := ∅;
            self_image := img_as_float32 image;
            self_label := label;
            self_multichannel := tuple_lt (shape label) (shape image);
            self_objects := objects;
            self_object_index := 1;
            self_object := object;
            self_volumetric := false;
            self_cropped := None;
            self_spatial_axes := seq 0 (ndim label) |}.
Proof.
  unfold __init__. destruct (find_objects label) as [objects|]; [|done]. cbn.
  unfold index_or_raise, py_getitem.
  destruct (decide (0 ≤ 1 - 1)%Z) as [_|]; [|lia].
  change (Z.to_nat (1 - 1)) with 0.
  destruct (objects !! 0) as [object|] eqn:Ho; [|done]. cbn.
  intros [= <-]. by exists objects, object.
Qed.

Lemma init_valid (label : ndarray Z) (image : ndarray Q) (g0 : Generator) :
  __init__ label image = Ok g0 → valid g0.
Proof.
  intros (objects & object & _ & _ & ->)%init_inv. by split.
Qed.

Lemma advances_perform (a : action) (g : Generator) : advances g (perform a g).
Proof. destruct a; [apply advances_next|apply advances_getattr]. Qed.

Lemma reachable_advances (label : ndarray Z) (image : ndarray Q) (g : Generator) :
  reachable label image g →
  ∃ g0, __init__ label image = Ok g0 ∧ advances g0 g.
Proof.
  intros (g0 & actions & Hi & ->). exists g0. split; [done|].
  induction actions as [|a actions IH] using rev_ind; [reflexivity|].
  rewrite foldl_app. cbn. etrans; [exact IH|apply advances_perform].
Qed.

Lemma reachable_valid (label : ndarray Z) (image : ndarray Q) (g : Generator) :
  reachable label image g → valid g ∧ self_label g = label.
Proof.
  intros (g0 & Hi & Ha)%reachable_advances.
  split; [apply (advances_valid _ _ Ha); by eapply init_valid|].
  rewrite (advances_label _ _ Ha).
  by apply init_inv in Hi as (? & ? & _ & _ & ->).
Qed.

(** *** The embedding of the moments *)

Lemma broadcast_rev_length (a b r : list nat) :
  broadcast_rev a b = Some r → length r = length a `max` length b.
Proof.
  revert b r. induction a as [|x a IH]; intros [|y b] r; cbn.
  1-3: intros [= <-]; cbn; lia.
  destruct (broadcast_rev a b) as [r'|] eqn:Hr; [|done]. cbn.
  specialize (IH _ _ Hr).
  repeat case_decide; intros [= <-]; cbn; lia.
Qed.

Lemma broadcast_shapes_length (a b r : list nat) :
  broadcast_shapes a b = Some r → length r = length a `max` length b.
Proof.
  unfold broadcast_shapes. destruct (broadcast_rev _ _) as [r'|] eqn:Hr; [|done].
  intros [= <-]. apply broadcast_rev_length in Hr.
  by rewrite !length_reverse in *.
Qed.

Lemma setitem_first_shape {A} (d : A) (v m t : ndarray A) :
  setitem_first d v m = Ok t → shape t = shape v.
Proof.
  unfold setitem_first. destruct (shape v) as [|[|n] sub]; try done.
  case_decide; [|done]. by intros [= <-].
Qed.

(** A moment tensor of rank [r] fits the 4 x 4 slice of the zero tensor
    exactly when [r ≤ 2]. *)
Lemma setitem_first_moments (m : ndarray Q) (r : nat) :
  shape m = replicate r 4 →
  if decide (r ≤ 2) then is_ok (setitem_first 0%Q (zeros [4; 4; 4]) m) = true
  else setitem_first 0%Q (zeros [4; 4; 4]) m = Raise ValueError.
Proof.
  intros Hm. unfold setitem_first. cbn [zeros build shape]. rewrite Hm.
  case_decide as Hr.
  - destruct r as [|[|[|r]]]; [done..|lia].
  - destruct r as [|[|[|r]]]; [lia..|].
    cbn [replicate fit_rank]. case_decide as Hb; [|done].
    apply broadcast_shapes_length in Hb. cbn in Hb. lia.
Qed.


(** ** The properties of the engine *)

(** C8: in every state of a generator, [area] is the sum of all the values
    of the whole label image, whatever the current object: it is the same
    value for every object. *)
Theorem area_is_sum_of_label (label : ndarray Z) (image : ndarray Q) (g : Generator) :
  reachable label image g →
  returned (area g) = Ok (VInt (np_sum_int label)).
Proof.
  intros [Hv <-]%reachable_valid. unfold area.
  destruct (self_cache g !! "area") as [v|] eqn:Hc.
  - rewrite (cache_hit _ _ _ _ Hc). cbn.
    by rewrite (valid_area _ Hv _ Hc).
  - by rewrite (cache_miss _ _ _ Hc).
Qed.

(** What a read of [spatial_moments] returns, in a valid state. *)
Lemma spatial_moments_returned (g : Generator) (v : value) :
  valid g → returned (spatial_moments g) = Ok v →
  ∃ mk u m t,
    returned (masked (after (spatial_moments g))) = Ok (VImage mk) ∧
    img_as_ubyte mk = Ok u ∧ moments u 3 = Ok m ∧
    setitem_first 0%Q (zeros [4; 4; 4]) m = Ok t ∧ v = VImage t.
Proof.
  intros Hg Hr.
  destruct (step_spatial_moments g) as [_ Hv]. specialize (Hv Hg).
  apply cache_returned in Hr.
  destruct (valid_spatial_moments _ Hv v Hr) as (mk & u & m & t & Hmk & ?).
  exists mk, u, m, t. split; [|done].
  unfold masked at 1. by rewrite (cache_hit _ _ _ _ Hmk).
Qed.

(** The function wrapped as [spatial_moments], after [masked] returned. *)
Lemma spatial_moments_miss (g : Generator) (mk : ndarray Q) (u : ndarray Z) (m : ndarray Q) :
  valid g → self_cache g !! "spatial_moments" = None →
  returned (masked g) = Ok (VImage mk) →
  img_as_ubyte mk = Ok u → moments u 3 = Ok m →
  returned (spatial_moments g) =
  match setitem_first 0%Q (zeros [4; 4; 4]) m with
  | Ok t => Ok (VImage t)
  | Raise e => Raise e
  end.
Proof.
  intros Hg Hc Hmk Hu Hm. unfold spatial_moments. rewrite (cache_miss _ _ _ Hc).
  match goal with |- returned (match returned ?o with _ => _ end) = _ =>
    assert (Hw : returned o =
                 match setitem_first 0%Q (zeros [4; 4; 4]) m with
                 | Ok t => Ok (VImage t)
                 | Raise e => Raise e
                 end); [|rewrite Hw; by destruct (setitem_first _ _ _)]
  end.
  assert (Hvol : self_volumetric (after (masked g)) = false).
  { destruct (step_masked g) as [_ Hv]. by destruct (Hv Hg). }
  rewrite bind_returned, Hmk. rewrite bind_returned. cbn [lift as_image returned after].
  rewrite bind_returned. cbn [lift returned after]. rewrite Hu.
  rewrite bind_returned. cbn [lift returned after]. rewrite Hm.
  rewrite bind_returned. cbn [get_self returned after]. rewrite Hvol. cbn [negb].
  rewrite bind_returned. cbn [lift returned after].
  by destruct (setitem_first _ _ _).
Qed.


(** C10, as amended: [volumetric] is [False] in every state, so
    [spatial_moments] always embeds the moments into the zero tensor;
    whatever it returns is a 4 x 4 x 4 tensor; it returns when the masked
    crop has at most two axes, and the assignment raises [ValueError] when
    it has more. *)
Theorem spatial_moments_embeds_up_to_rank_two
    (label : ndarray Z) (image : ndarray Q) (g : Generator) :
  reachable label image g →
  self_volumetric g = false ∧
  (∀ v, returned (spatial_moments g) = Ok v →
        ∃ t, v = VImage t ∧ shape t = [4; 4; 4]) ∧
  (∀ mk u m,
     self_cache g !! "spatial_moments" = None →
     returned (masked g) = Ok (VImage mk) →
     img_as_ubyte mk = Ok u → moments u 3 = Ok m →
     if decide (ndim mk ≤ 2) then is_ok (returned (spatial_moments g)) = true
     else returned (spatial_moments g) = Raise ValueError).
Proof.
  intros [Hg _]%reachable_valid. split; [apply Hg|]. split.
  - intros v Hr.
    destruct (spatial_moments_returned g v Hg Hr) as (mk & u & m & t & _ & _ & _ & Ht & ->).
    exists t. split; [done|]. apply (setitem_first_shape _ _ _ _ Ht).
  - intros mk u m Hc Hmk Hu Hm.
    rewrite (spatial_moments_miss g mk u m Hg Hc Hmk Hu Hm).
    destruct (moments_shape _ _ _ Hm) as [Hs _].
    unfold ndim in Hs. rewrite (img_as_ubyte_shape _ _ Hu) in Hs.
    pose proof (setitem_first_moments m (ndim mk) Hs) as Hfit.
    case_decide.
    + by destruct (setitem_first _ _ _).
    + by rewrite Hfit.
Qed.

(** *** Construction *)

Lemma foldl_max_spec (x : Z) (l : list Z) :
  foldl Z.max x l ∈ x :: l ∧ Forall (λ y, (y ≤ foldl Z.max x l)%Z) (x :: l).
Proof.
  revert x. induction l as [|y l IH]; intros x; cbn.
  - split; [by left|]. by repeat constructor.
  - destruct (IH (Z.max x y)) as [Hin Hle]. clear IH. split.
    + rewrite !elem_of_cons. apply elem_of_cons in Hin as [Hin|Hin]; [|auto].
      rewrite Hin. destruct (Z.max_spec x y) as [[_ ->]|[_ ->]]; auto.
    + apply Forall_cons in Hle as [Hm Hle].
      repeat constructor; [lia|lia|done].
Qed.

Lemma find_objects_length (label : ndarray Z) (objects : list (option (list slice))) :
  find_objects label = Ok objects →
  ∃ m, m ∈ data label ∧ Forall (λ y, (y ≤ m)%Z) (data label) ∧
       length objects = Z.to_nat m.
Proof.
  unfold find_objects, np_max_int. destruct (data label) as [|x l]; [done|]. cbn.
  intros [= <-]. exists (foldl Z.max x l).
  destruct (foldl_max_spec x l) as [Hin Hle].
  by rewrite length_fmap, length_seq.
Qed.

Lemma find_objects_positive (label : ndarray Z) :
  Exists (λ x, (0 < x)%Z) (data label) →
  ∃ objects object, find_objects label = Ok objects ∧ objects !! 0 = Some object.
Proof.
  intros (x & Hx & Hpos)%Exists_exists.
  unfold find_objects, np_max_int. destruct (data label) as [|y l]; [by apply elem_of_nil in Hx|]. cbn.
  destruct (foldl_max_spec y l) as [_ Hle].
  assert (x ≤ foldl Z.max y l)%Z as Hm by (by eapply Forall_forall in Hle).
  destruct (Z.to_nat (foldl Z.max y l)) as [|n] eqn:Hn; [lia|].
  cbn. eauto.
Qed.

(** C9, as amended: construction fails exactly when the label image has no
    positive label; the intensity image plays no part in that, so shapes
    that are not compatible are not refused. *)
Theorem init_succeeds_iff_positive_label (label : ndarray Z) (image : ndarray Q) :
  is_ok (__init__ label image) = true ↔ Exists (λ x, (0 < x)%Z) (data label).
Proof.
  split.
  - destruct (__init__ label image) as [g0|] eqn:Hi; [|done]. intros _.
    apply init_inv in Hi as (objects & object & Hf & Ho & _).
    apply find_objects_length in Hf as (m & Hin & _ & Hlen).
    apply lookup_lt_Some in Ho. apply Exists_exists. exists m. split; [done|lia].
  - intros (objects & object & Hf & Ho)%find_objects_positive.
    unfold __init__. rewrite Hf. cbn.
    unfold index_or_raise, py_getitem.
    destruct (decide (0 ≤ 1 - 1)%Z) as [_|]; [|lia].
    change (Z.to_nat (1 - 1)) with 0. by rewrite Ho.
Qed.

(** *** Iteration *)

Lemma mapM_cons_returned {A B} (f : A → M B) (x : A) (l : list A) (g : Generator)
    (ys : list B) :
  returned (mapM f (x :: l) g) = Ok ys →
  ∃ y ys', returned (f x g) = Ok y ∧
           returned (mapM f l (after (f x g))) = Ok ys' ∧ ys = y :: ys'.
Proof.
  cbn [mapM]. rewrite bind_returned.
  destruct (returned (f x g)) as [y|]; [|done].
  rewrite bind_returned.
  destruct (returned (mapM f l (after (f x g)))) as [ys'|]; [|done].
  cbn. intros [= <-]. by exists y, ys'.
Qed.

Lemma mapM_length {A B} (f : A → M B) (l : list A) (g : Generator) (ys : list B) :
  returned (mapM f l g) = Ok ys → length ys = length l.
Proof.
  revert g ys. induction l as [|x l IH]; intros g ys.
  - cbn. by intros [= <-].
  - intros (y & ys' & _ & Hl & ->)%mapM_cons_returned. cbn. f_equal. by eapply IH.
Qed.

Lemma mapM_lookup (R : relation Generator) `{!PreOrder R} {A B}
    (f : A → M B) (l : list A) :
  Forall (λ x, respects R (f x)) l →
  ∀ g ys i x, returned (mapM f l g) = Ok ys → l !! i = Some x →
  ∃ gi y, R g gi ∧ returned (f x gi) = Ok y ∧ ys !! i = Some y.
Proof.
  induction 1 as [|x0 l Hx _ IH]; intros g ys i x Hr Hi; [done|].
  apply mapM_cons_returned in Hr as (y & ys' & Hy & Hl & ->).
  destruct i as [|i]; cbn in Hi.
  - injection Hi as <-. exists g, y. split; [reflexivity|done].
  - destruct (IH _ _ _ _ Hl Hi) as (gi & yi & HR & ? & ?).
    exists gi, yi. split; [|done]. etrans; [apply Hx|done].
Qed.

Lemma next_stop (g : Generator) :
  py_getitem (self_objects g) (self_object_index g - 1) = None →
  __next__ g = mkOutcome (Raise StopIteration) g [].
Proof. intros Hn. unfold __next__. rewrite bind_get_self. by rewrite Hn. Qed.

Lemma next_row (g : Generator) (object : option (list slice)) :
  py_getitem (self_objects g) (self_object_index g - 1) = Some object →
  __next__ g = evaluate_row object g.
Proof.
  intros Hn. unfold __next__. rewrite bind_get_self, Hn.
  by rewrite !bind_modify_self.
Qed.

Lemma extends_mapM_getattr (members : list string) :
  respects extends (mapM getattr members).
Proof.
  apply respects_mapM; [apply _|]. apply Forall_forall. intros member _.
  eapply respects_weaken; [|apply step_getattr]. by intros g g' [].
Qed.

Lemma evaluate_row_attributes (g : Generator) (object : option (list slice)) :
  self_objects (after (evaluate_row object g)) = self_objects g ∧
  self_object_index (after (evaluate_row object g)) = (self_object_index g + 1)%Z ∧
  self_object (after (evaluate_row object g)) = object.
Proof.
  unfold evaluate_row.
  destruct (extends_mapM_getattr _members
    (with_object_index (self_object_index g + 1) (with_object object g))) as [-> _].
  done.
Qed.

(** After [k] calls the cursor stands at [1 + min k n], where [n] is the
    number of objects. *)
Lemma after_calls_cursor (g0 : Generator) (k : nat) :
  self_object_index g0 = 1%Z →
  self_objects (after_calls k g0) = self_objects g0 ∧
  self_object_index (after_calls k g0)
  = (1 + Z.of_nat (k `min` length (self_objects g0)))%Z.
Proof.
  intros H1. induction k as [|k [IHo IHi]]; cbn [after_calls].
  - split; [done|]. rewrite H1. lia.
  - set (g := after_calls k g0) in *.
    destruct (py_getitem (self_objects g) (self_object_index g - 1)) as [o|] eqn:Hg.
    + rewrite (next_row _ _ Hg).
      destruct (evaluate_row_attributes g o) as (-> & -> & _).
      split; [done|]. rewrite IHi.
      unfold py_getitem in Hg. rewrite IHi, IHo in Hg.
      case_decide; [|lia]. apply lookup_lt_Some in Hg. lia.
    + rewrite (next_stop _ Hg). cbn [after]. split; [done|]. rewrite IHi.
      unfold py_getitem in Hg. rewrite IHi, IHo in Hg.
      case_decide; [|lia]. apply lookup_ge_None in Hg. lia.
Qed.

Lemma after_calls_lookup (g0 : Generator) (k : nat) :
  self_object_index g0 = 1%Z →
  py_getitem (self_objects (after_calls k g0))
             (self_object_index (after_calls k g0) - 1)
  = self_objects g0 !! (k `min` length (self_objects g0)).
Proof.
  intros H1. destruct (after_calls_cursor g0 k H1) as [-> ->].
  unfold py_getitem. case_decide; [|lia]. f_equal. lia.
Qed.

Lemma after_calls_exhausted (g0 : Generator) (k : nat) :
  self_object_index g0 = 1%Z → length (self_objects g0) ≤ k →
  after_calls k g0 = after_calls (length (self_objects g0)) g0 ∧
  __next__ (after_calls k g0) = mkOutcome (Raise StopIteration) (after_calls k g0) [].
Proof.
  intros H1 Hk. induction Hk as [|k Hk [IHe IHn]].
  - split; [done|]. apply next_stop. rewrite after_calls_lookup by done.
    apply lookup_ge_None. lia.
  - assert (after_calls (S k) g0 = after_calls k g0) as Hs.
    { cbn [after_calls]. by rewrite IHn. }
    rewrite Hs. done.
Qed.

Lemma init_cursor (label : ndarray Z) (image : ndarray Q) (g0 : Generator) :
  __init__ label image = Ok g0 → self_object_index g0 = 1%Z.
Proof. by intros (? & ? & _ & _ & ->)%init_inv. Qed.



Lemma getattr_object_index (g : Generator) :
  getattr "_feature_metadata_object_index" g
  = mkOutcome (Ok (VInt (self_object_index g))) g [].
Proof. reflexivity. Qed.

Lemma members_object_index :
  _members !! 44 = Some "_feature_metadata_object_index" ∧
  list_find (λ c, c = "metadata_object_index") columns
  = Some (44, "metadata_object_index").
Proof. split; vm_compute; reflexivity. Qed.

(** C2, what the code does: the row returned by call number [k + 1] holds
    [k + 2] in the column [metadata_object_index], because [__next__]
    increments [object_index] before it evaluates the row. *)
Theorem row_reports_following_index
    (label : ndarray Z) (image : ndarray Q) (g0 : Generator) (k : nat)
    (row : list value) :
  __init__ label image = Ok g0 →
  returned (__next__ (after_calls k g0)) = Ok row →
  column "metadata_object_index" row = Some (VInt (Z.of_nat k + 2)).
Proof.
  intros Hi Hr. pose proof (init_cursor _ _ _ Hi) as H1.
  set (g := after_calls k g0) in *.
  destruct (py_getitem (self_objects g) (self_object_index g - 1)) as [o|] eqn:Hg;
    [|by rewrite (next_stop _ Hg) in Hr].
  rewrite (next_row _ _ Hg) in Hr.
  assert (self_object_index g = 1 + Z.of_nat k)%Z as Hidx.
  { unfold g in *. rewrite after_calls_lookup in Hg by done.
    apply lookup_lt_Some in Hg.
    destruct (after_calls_cursor g0 k H1) as [_ ->]. lia. }
  destruct members_object_index as [Hm Hc].
  unfold evaluate_row in Hr.
  assert (Forall (λ x, respects extends (getattr x)) _members) as Hall.
  { apply Forall_forall. intros member _.
    eapply respects_weaken; [|apply step_getattr]. by intros ? ? []. }
  destruct (mapM_lookup extends getattr _members Hall _ _ _ _ Hr Hm)
    as (gi & y & [Ha _] & Hy & Hrow).
  rewrite getattr_object_index in Hy. cbn in Hy. injection Hy as <-.
  unfold column. rewrite Hc. cbn. rewrite Hrow. do 2 f_equal.
  rewrite Ha. cbn. lia.
Qed.

(** *** Memoization *)

(** The function wrapped under [name] does not run during [m]. *)
Definition silent (name : string) {A} (m : M A) : Prop :=
  ∀ g, invocations name (invoked (m g)) = 0.

Lemma invocations_app (name : string) (l1 l2 : list string) :
  invocations name (l1 ++ l2) = invocations name l1 + invocations name l2.
Proof. unfold invocations. by rewrite filter_app, length_app. Qed.

Lemma silent_ret (name : string) {A} (a : A) : silent name (ret a).
Proof. by intros g. Qed.

Lemma silent_raise (name : string) {A} (e : exn) : silent name (raise (A:=A) e).
Proof. by intros g. Qed.

Lemma silent_lift (name : string) {A} (r : result A) : silent name (lift r).
Proof. by intros g. Qed.

Lemma silent_get_self (name : string) : silent name get_self.
Proof. by intros g. Qed.

Lemma silent_bind (name : string) {A B} (m : M A) (k : A → M B) :
  silent name m → (∀ a, silent name (k a)) → silent name (m ≫= k).
Proof.
  intros Hm Hk g. rewrite bind_invoked.
  destruct (returned (m g)); [|apply Hm].
  by rewrite invocations_app, Hm, Hk.
Qed.

Lemma silent_cache (name other : string) (wrapped : M value) :
  other ≠ name → silent name wrapped → silent name (cache other wrapped).
Proof.
  intros Hne Hw g. destruct (self_cache g !! other) as [v|] eqn:Hv.
  - by rewrite (cache_hit _ _ _ _ Hv).
  - rewrite (cache_miss _ _ _ Hv).
    assert (invocations name (other :: invoked (wrapped g)) = 0) as H0.
    { unfold invocations. rewrite filter_cons_False by done. apply Hw. }
    by destruct (returned (wrapped g)).
Qed.

Ltac silent_tac :=
  repeat first
    [ assumption
    | apply silent_ret | apply silent_raise | apply silent_lift
    | apply silent_get_self
    | progress (lazy zeta)
    | match goal with
      | |- silent _ (match ?x with _ => _ end) => destruct x
      | |- silent _ (_ ≫= _) => apply silent_bind; [|intros ?]
      | |- silent _ (cache _ _) => apply silent_cache; [done|]
      end ].

Lemma silent_mask (name : string) : name ≠ "mask" → silent name mask.
Proof. intros. unfold mask. silent_tac. Qed.

Lemma silent_crop (name : string) : name ≠ "crop" → silent name crop.
Proof. intros. unfold crop. silent_tac. Qed.

Lemma silent_coordinates (name : string) :
  name ≠ "coordinates" → silent name coordinates.
Proof. intros. unfold coordinates. silent_tac. Qed.

Lemma silent_masked (name : string) :
  name ≠ "masked" → name ≠ "mask" → silent name masked.
Proof. intros. assert (silent name mask) by (by apply silent_mask). unfold masked. silent_tac. Qed.

Lemma silent_spatial_moments (name : string) :
  name ≠ "spatial_moments" → name ≠ "masked" → name ≠ "mask" →
  silent name spatial_moments.
Proof.
  intros. assert (silent name masked) by (by apply silent_masked). unfold spatial_moments. silent_tac.
Qed.

Lemma silent_local_centroid (name : string) :
  name ≠ "local_centroid" → name ≠ "spatial_moments" → name ≠ "masked" →
  name ≠ "mask" → silent name local_centroid.
Proof.
  intros. assert (silent name spatial_moments) by (by apply silent_spatial_moments). unfold local_centroid. silent_tac.
Qed.

Lemma silent_central_moments (name : string) :
  name ≠ "central_moments" → name ≠ "local_centroid" →
  name ≠ "spatial_moments" → name ≠ "masked" → name ≠ "mask" →
  silent name central_moments.
Proof.
  intros. assert (silent name local_centroid) by (by apply silent_local_centroid). unfold central_moments. silent_tac.
Qed.

Lemma silent_inertia_tensor (name : string) :
  name ≠ "inertia_tensor" → name ≠ "central_moments" → name ≠ "local_centroid" →
  name ≠ "spatial_moments" → name ≠ "masked" → name ≠ "mask" →
  silent name inertia_tensor_.
Proof.
  intros. assert (silent name central_moments) by (by apply silent_central_moments). unfold inertia_tensor_. silent_tac.
Qed.


(** Reading a cached property by name is a call of the decorator. *)
Lemma getattr_cached (name : string) :
  name ∈ cached_properties →
  ∃ wrapped, getattr name = cache name wrapped ∧
             respects step wrapped ∧ silent name wrapped.
Proof.
  unfold cached_properties. rewrite !elem_of_cons, elem_of_nil.
  intros Hin.
  repeat (destruct Hin as [->|Hin]);
    [..|done];
    (eexists; split; [reflexivity|]; split; [respects_tac|]).
  - silent_tac.
  - assert (silent "central_moments" local_centroid) by (by apply silent_local_centroid).
    silent_tac.
  - assert (silent "centroid" coordinates) by (by apply silent_coordinates).
    silent_tac.
  - assert (silent "convex_hull" mask) by (by apply silent_mask). silent_tac.
  - silent_tac.
  - silent_tac.
  - assert (silent "edge" mask) by (by apply silent_mask).
    assert (silent "edge" crop) by (by apply silent_crop). silent_tac.
  - assert (silent "inertia_tensor" central_moments) by (by apply silent_central_moments).
    silent_tac.
  - assert (silent "inertia_tensor_eigenvalues" inertia_tensor_)
      by (by apply silent_inertia_tensor).
    silent_tac.
  - assert (silent "local_centroid" spatial_moments) by (by apply silent_spatial_moments).
    silent_tac.
  - silent_tac.
  - assert (silent "masked" mask) by (by apply silent_mask). silent_tac.
  - assert (silent "spatial_moments" masked) by (by apply silent_masked). silent_tac.
  - assert (silent "_feature_color_object_maximum_intensity" masked)
      by (by apply silent_masked).
    unfold masked_image, max_of. silent_tac.
Qed.


(** *** Division by the pixel count *)




End validity.

(** No call of [__next__] removes or replaces an entry of the cache. *)
Lemma next_keeps_cache `{Library} (g : Generator) :
  self_cache g ⊆ self_cache (after (__next__ g)).
Proof. apply advances_next. Qed.

(** ** What [coordinates] computes *)

Lemma index_or_raise_nat {A} (l : list A) (k : nat) :
  index_or_raise l (Z.of_nat k)
  = match l !! k with Some a => Ok a | None => Raise IndexError end.
Proof.
  unfold index_or_raise, py_getitem.
  destruct (decide (0 ≤ Z.of_nat k)%Z); [|lia]. by rewrite Nat2Z.id.
Qed.

Lemma result_mapM_ok {A B} (f : A → result B) (g : A → B) (l : list A) :
  Forall (λ x, f x = Ok (g x)) l → result_mapM f l = Ok (g <$> l).
Proof.
  induction 1 as [|x l Hx _ IH]; [done|].
  cbn [result_mapM]. rewrite Hx. cbn. rewrite IH. done.
Qed.

Lemma length_index_of (sh idx : list nat) :
  idx ∈ indices_of sh → length idx = length sh.
Proof.
  revert idx. induction sh as [|n sh IH]; intros idx; cbn [indices_of].
  - by intros ->%list_elem_of_singleton.
  - intros (i & Hidx & _)%list_elem_of_bind.
    apply list_elem_of_fmap in Hidx as (idx' & -> & Hidx').
    cbn. f_equal. by apply IH.
Qed.

Lemma bind_seq_lookup {A B} (l : list A) (from : nat)
    (F : nat → list B) (G : A → list B) :
  (∀ r x, l !! r = Some x → F (from + r) = G x) →
  seq from (length l) ≫= F = l ≫= G.
Proof.
  revert from. induction l as [|x l IH]; intros from HF; [done|].
  cbn. f_equal.
  - rewrite <- (HF 0 x eq_refl). f_equal. lia.
  - apply IH. intros r y Hr. rewrite <- (HF (S r) y Hr). f_equal. lia.
Qed.

Lemma fmap_seq_zip_with {A B C} (f : A → B → C) (h : nat → C)
    (l : list A) (k : list B) (from : nat) :
  length k ≤ length l →
  (∀ r a b, l !! r = Some a → k !! r = Some b → h (from + r) = f a b) →
  h <$> seq from (length k) = zip_with f l k.
Proof.
  revert l from. induction k as [|b k IH]; intros l from Hlen Hh.
  - by destruct l.
  - destruct l as [|a l]; [cbn in Hlen; lia|]. cbn. f_equal.
    + rewrite <- (Hh 0 a b eq_refl eq_refl). f_equal. lia.
    + apply IH; [cbn in Hlen; lia|].
      intros r a' b' Ha Hb. rewrite <- (Hh (S r) a' b' Ha Hb). f_equal. lia.
Qed.

Lemma vstack_T_fmap (column : nat → list Z) (n rows : nat) :
  0 < n → (∀ k, length (column k) = rows) →
  vstack_T (column <$> seq 0 n)
  = Ok (NdArray [rows; n]
          (r ← seq 0 rows; (λ k, default 0%Z (column k !! r)) <$> seq 0 n)).
Proof.
  intros Hn Hrows. destruct n as [|n]; [lia|].
  unfold vstack_T. cbn [seq fmap list_fmap].
  change (column 0 :: (column <$> seq 1 n)) with (column <$> seq 0 (S n)).
  rewrite Hrows, length_fmap, length_seq. do 2 f_equal.
  apply list_bind_ext; [|done]. intros r.
  cbn [seq fmap list_fmap]. by rewrite <- list_fmap_compose.
Qed.

Section coordinates.
Context `{Library}.

(** A read of [coordinates] that finds nothing in the cache returns one row
    per nonzero element of the whole intensity image; the row is the index
    of the element, cut to the axes of the label image, plus the starts of
    the slices of the current object. *)
Lemma coordinates_miss (g : Generator) (object : list slice) :
  self_cache g !! "coordinates" = None →
  self_object g = Some object →
  length object = ndim (self_label g) →
  0 < ndim (self_label g) ≤ ndim (self_image g) →
  let hits := nonzero_indices Qnonzero 0%Q (self_image g) in
  returned (coordinates g)
  = Ok (VIntArr (NdArray [length hits; length object]
          (idx ← hits;
           zip_with (λ i sl, (Z.of_nat i + Z.of_nat (start sl))%Z) idx object))).
Proof.
  intros Hc Ho Hlen [Hpos Hle] hits. unfold coordinates.
  rewrite (cache_miss _ _ _ Hc).
  match goal with |- returned (match returned ?o with _ => _ end) = ?r =>
    assert (Hw : returned o = r); [|by rewrite Hw]
  end.
  rewrite bind_get_self. lazy zeta. rewrite Ho, <- Hlen.
  set (column (k : nat) := (λ idx : list nat,
         (Z.of_nat (default 0%nat (idx !! k))
          + Z.of_nat (start (default (Slice 0 0) (object !! k))))%Z) <$> hits).
  assert (result_mapM
            (shifted_axis (np_nonzero Qnonzero 0%Q (self_image g)) (Some object))
            (seq 0 (length object))
          = Ok (column <$> seq 0 (length object))) as ->.
  { apply result_mapM_ok, Forall_forall. intros k [_ Hk]%elem_of_seq.
    unfold shifted_axis. rewrite index_or_raise_nat.
    unfold np_nonzero. rewrite list_lookup_fmap, lookup_seq_lt by lia. cbn.
    rewrite index_or_raise_nat.
    destruct (object !! k) as [sl|] eqn:Hsl;
      [|apply lookup_ge_None in Hsl; lia].
    cbn. unfold column, hits. rewrite Hsl. cbn [default from_option].
    by rewrite <- list_fmap_compose. }
  rewrite bind_returned. cbn [lift returned after].
  rewrite (vstack_T_fmap column (length object) (length hits));
    [|lia|intros k; unfold column; by rewrite length_fmap].
  rewrite bind_returned. cbn [lift returned after ret]. do 3 f_equal.
  apply bind_seq_lookup. intros r idx Hr. cbn [Nat.add].
  apply fmap_seq_zip_with.
  - assert (idx ∈ indices_of (shape (self_image g))) as Hidx.
    { apply list_elem_of_lookup_2 in Hr. unfold hits, nonzero_indices in Hr.
      by apply list_elem_of_filter in Hr as [_ ?]. }
    apply length_index_of in Hidx. unfold ndim in *. lia.
  - intros k i sl Hi Hsl. cbn [Nat.add]. unfold column.
    rewrite list_lookup_fmap, Hr. cbn. by rewrite Hi, Hsl.
Qed.

End coordinates.

(** ** The engine on the example images *)

Lemma two_init : __init__ two_label two_image = Ok two_start.
Proof. reflexivity. Qed.

Lemma corner_init : __init__ corner_label corner_image = Ok corner_start.
Proof. reflexivity. Qed.


Lemma cube_init : __init__ cube_label cube_image = Ok cube_start.
Proof. reflexivity. Qed.

(** C1, what the code does: [__next__] never empties the cache.  With the
    two one-pixel objects, the row of the first object caches its crop;
    once the generator has advanced to the second object, reading [crop]
    returns that crop of the first object, without running the wrapped
    function, although the crop of the current object is another array. *)
Theorem second_object_reads_first_crop :
  __init__ two_label two_image = Ok two_start ∧
  let g1 := after_calls 1 two_start in
  let g2 := after_calls 2 two_start in
  self_object g1 = Some [Slice 0 1; Slice 0 1] ∧
  self_cache g1 !! "crop" = Some (VImage (NdArray [1; 1] [1 # 2]%Q)) ∧
  self_object g2 = Some [Slice 0 1; Slice 1 2] ∧
  returned (crop g2) = Ok (VImage (NdArray [1; 1] [1 # 2]%Q)) ∧
  invoked (crop g2) = [] ∧
  getitem 0%Q (self_image g2) (self_object g2) = Ok (NdArray [1; 1] [1 # 4]%Q).
Proof. split; [exact two_init|]. vm_compute. done. Qed.

(** C2: the first row of the two-object example reports the object index
    2, not 1. *)
Lemma row_reports_following_index_witness :
  ∃ row,
    __init__ two_label two_image = Ok two_start ∧
    returned (__next__ (after_calls 0 two_start)) = Ok row ∧
    column "metadata_object_index" row = Some (VInt (Z.of_nat 0 + 2)).
Proof.
  eexists. split; [exact two_init|].
  split; [vm_compute; reflexivity|].
  apply (row_reports_following_index two_label two_image two_start 0).
  - exact two_init.
  - vm_compute; reflexivity.
Defined.

(** C3, what the code does: [coordinates] takes the nonzero elements of
    the whole intensity image and adds the start of the object's slices to
    each index.  For the object in the lower right corner, whose slices
    hold the single element (1, 1), it returns the two rows (1, 1) and
    (2, 2): the first is the shifted index of the element (0, 0), which
    lies outside the slices, the second that of the element (1, 1), and
    (2, 2) is not an index of the image. *)
Theorem coordinates_of_whole_image :
  __init__ corner_label corner_image = Ok corner_start ∧
  self_object corner_start = Some [Slice 1 2; Slice 1 2] ∧
  returned (coordinates corner_start)
  = Ok (VIntArr (NdArray [2; 2] [1; 1; 2; 2]%Z)) ∧
  coordinates_in_slice (self_image corner_start) [Slice 1 2; Slice 1 2]
  = NdArray [1; 2] [1; 1]%Z.
Proof. split; [exact corner_init|]. vm_compute. done. Qed.




(** C8 on the two-object example, for the second object: the sum is 3. *)
Lemma area_is_sum_of_label_witness :
  let g := foldl (λ g a, perform a g) two_start [Advance; Read "area"; Advance] in
  reachable two_label two_image g ∧
  returned (area g) = Ok (VInt (np_sum_int two_label)).
Proof.
  assert (reachable two_label two_image
            (foldl (λ g a, perform a g) two_start [Advance; Read "area"; Advance]))
    as Hr.
  { eexists _, _. split; [exact two_init|reflexivity]. }
  split; [exact Hr|]. exact (area_is_sum_of_label two_label two_image _ Hr).
Defined.



(** C9, where the claim fails: a 1 x 1 label image and a one-dimensional
    intensity image of three elements have shapes that are neither equal
    nor a multichannel extension, and construction succeeds. *)
Lemma init_accepts_incompatible_shapes :
  ¬ compatible_shapes dark_label line_image ∧
  is_ok (__init__ dark_label line_image) = true.
Proof.
  split; [|reflexivity].
  intros [Heq|[channels Heq]]; discriminate Heq.
Qed.

(** C10, where the claim fails: for the three-dimensional one-voxel
    object the masked crop has three axes, its moment tensor is
    4 x 4 x 4, and assigning it to the 4 x 4 slice raises: [spatial_moments]
    returns no tensor. *)
Lemma volumetric_label_raises :
  __init__ cube_label cube_image = Ok cube_start ∧
  ndim (self_label cube_start) = 3 ∧
  self_volumetric cube_start = false ∧
  returned (masked cube_start) = Ok (VImage (NdArray [1; 1; 1] [1 # 2]%Q)) ∧
  returned (spatial_moments cube_start) = Raise ValueError.
Proof. split; [exact cube_init|]. vm_compute. done. Qed.

(** C10, as amended, on the three-dimensional example. *)
Lemma spatial_moments_embeds_up_to_rank_two_witness :
  let g := foldl (λ g a, perform a g) cube_start [Read "mask"] in
  reachable cube_label cube_image g ∧
  self_volumetric g = false ∧
  (∀ v, returned (spatial_moments g) = Ok v →
        ∃ t, v = VImage t ∧ shape t = [4; 4; 4]) ∧
  (∀ mk u m,
     self_cache g !! "spatial_moments" = None →
     returned (masked g) = Ok (VImage mk) →
     img_as_ubyte mk = Ok u → moments u 3 = Ok m →
     if decide (ndim mk ≤ 2) then is_ok (returned (spatial_moments g)) = true
     else returned (spatial_moments g) = Raise ValueError).
Proof.
  assert (reachable cube_label cube_image
            (foldl (λ g a, perform a g) cube_start [Read "mask"])) as Hr.
  { eexists _, _. split; [exact cube_init|reflexivity]. }
  split; [exact Hr|].
  exact (spatial_moments_embeds_up_to_rank_two cube_label cube_image _ Hr).
Defined.

(** ** Further properties of the engine *)

Section further.
Context `{Library}.

(** X1: reading a property, whichever it is and whatever it returns or
    raises, leaves every attribute of the generator but the cache as it
    is, and removes or replaces no entry of the cache. *)
Theorem reading_changes_only_the_cache (member : string) (g : Generator) :
  extends g (after (getattr member g)).
Proof. apply step_getattr. Qed.

Lemma advances_run (actions : list action) (g : Generator) :
  advances g (foldl (λ g a, perform a g) g actions).
Proof.
  induction actions as [|a actions IH] using rev_ind; [reflexivity|].
  rewrite foldl_app. cbn. etrans; [exact IH|apply advances_perform].
Qed.

(** X2: an entry of the cache is permanent.  Once a value is stored under
    the name of a cached property, every later read of that property
    returns this value without running the wrapped function, whatever
    calls of [next()] and reads of properties happen in between. *)
Theorem cache_entries_are_permanent
    (name : string) (v : value) (g : Generator) (actions : list action) :
  name ∈ cached_properties →
  self_cache g !! name = Some v →
  let g' := foldl (λ g a, perform a g) g actions in
  self_cache g' !! name = Some v ∧
  getattr name g' = mkOutcome (Ok v) g' [].
Proof.
  intros (wrapped & -> & _)%getattr_cached Hv g'.
  assert (self_cache g' !! name = Some v) as Hv'.
  { eapply lookup_weaken; [exact Hv|]. apply advances_run. }
  split; [done|]. by apply cache_hit.
Qed.

(** X3: the calls of [next()] go through the list of objects in order,
    whether the rows return or raise.  With [n] the length of the list,
    which is the largest label of the label image, call number [k + 1]
    evaluates the row of entry [k] when [k < n], and leaves the generator
    on that entry with [object_index = k + 2]; every call after the [n]-th
    raises [StopIteration] and leaves the generator as it is. *)
Theorem next_goes_through_the_objects
    (label : ndarray Z) (image : ndarray Q) (g0 : Generator) (k : nat) :
  __init__ label image = Ok g0 →
  let n := length (self_objects g0) in
  Z.of_nat n ∈ data label ∧ Forall (λ x, (x ≤ Z.of_nat n)%Z) (data label) ∧
  (k < n →
   ∃ object,
     self_objects g0 !! k = Some object ∧
     __next__ (after_calls k g0) = evaluate_row object (after_calls k g0) ∧
     self_object (after_calls (S k) g0) = object ∧
     self_object_index (after_calls (S k) g0) = (Z.of_nat k + 2)%Z) ∧
  (n ≤ k →
   __next__ (after_calls k g0)
   = mkOutcome (Raise StopIteration) (after_calls n g0) []).
Proof.
  intros Hi n. pose proof (init_cursor _ _ _ Hi) as H1.
  split; [|split; [|split]].
  - apply init_inv in Hi as (objects & object & Hf & Ho & ->).
    apply find_objects_length in Hf as (m & Hm & _ & Hlen).
    apply lookup_lt_Some in Ho. subst n. cbn in *.
    replace (Z.of_nat (length objects)) with m by lia. done.
  - apply init_inv in Hi as (objects & object & Hf & Ho & ->).
    apply find_objects_length in Hf as (m & _ & Hmax & Hlen).
    apply lookup_lt_Some in Ho. subst n. cbn in *.
    replace (Z.of_nat (length objects)) with m by lia. done.
  - intros Hk.
    destruct (self_objects g0 !! k) as [object|] eqn:Ho;
      [|apply lookup_ge_None in Ho; lia].
    exists object. split; [done|].
    assert (py_getitem (self_objects (after_calls k g0))
              (self_object_index (after_calls k g0) - 1) = Some object) as Hg.
    { rewrite after_calls_lookup by done. by rewrite Nat.min_l by lia. }
    split; [by apply next_row|].
    cbn [after_calls]. rewrite (next_row _ _ Hg).
    destruct (evaluate_row_attributes (after_calls k g0) object) as (_ & -> & ->).
    split; [done|].
    destruct (after_calls_cursor g0 k H1) as [_ ->]. lia.
  - intros Hk.
    destruct (after_calls_exhausted g0 k H1 Hk) as [He Hs].
    rewrite Hs. by rewrite He.
Qed.

(** The cursor stays between 1 and one past the number of objects. *)
Definition cursor_in_range (g : Generator) : Prop :=
  (1 ≤ self_object_index g ≤ Z.of_nat (length (self_objects g)) + 1)%Z.

Lemma perform_cursor (a : action) (g : Generator) :
  cursor_in_range g →
  cursor_in_range (perform a g) ∧
  (self_object_index g ≤ self_object_index (perform a g))%Z.
Proof.
  unfold cursor_in_range. intros Hg. destruct a as [|member]; cbn [perform].
  - destruct (py_getitem (self_objects g) (self_object_index g - 1)) as [o|] eqn:Ho.
    + rewrite (next_row _ _ Ho).
      destruct (evaluate_row_attributes g o) as (-> & -> & _).
      unfold py_getitem in Ho. case_decide; [|lia].
      apply lookup_lt_Some in Ho. lia.
    + rewrite (next_stop _ Ho). cbn [after]. lia.
  - destruct (step_getattr member g) as [[-> _] _]. cbn. lia.
Qed.

(** X4: in every state of a generator, [object_index] lies between 1 and
    one past the number of objects, so that [self.objects[object_index - 1]]
    is never read with a negative index, and the list of objects is the
    one that [find_objects] returned for the label image. *)
Theorem cursor_stays_in_range
    (label : ndarray Z) (image : ndarray Q) (g : Generator) :
  reachable label image g →
  cursor_in_range g ∧ find_objects label = Ok (self_objects g).
Proof.
  intros (g0 & actions & Hi & ->). split.
  - induction actions as [|a actions IH] using rev_ind.
    + apply init_inv in Hi as (objects & object & _ & Ho & ->).
      apply lookup_lt_Some in Ho. unfold cursor_in_range. cbn. lia.
    + rewrite foldl_app. cbn. by apply perform_cursor.
  - rewrite (advances_objects _ _ (advances_run actions g0)).
    by apply init_inv in Hi as (objects & object & Hf & _ & ->).
Qed.

(** X5: a row that [__next__] returns has one value per column. *)
Theorem row_has_one_value_per_column (g : Generator) (row : list value) :
  returned (__next__ g) = Ok row →
  length row = length columns ∧ length columns = 197.
Proof.
  intros Hr. split; [|by vm_compute].
  destruct (py_getitem (self_objects g) (self_object_index g - 1)) as [o|] eqn:Ho;
    [|by rewrite (next_stop _ Ho) in Hr].
  rewrite (next_row _ _ Ho) in Hr. unfold evaluate_row in Hr.
  apply mapM_length in Hr. unfold columns. by rewrite length_fmap.
Qed.

End further.

Section avoidance.
Context `{Library}.

(** During [m] the function wrapped under [name] does not run, and the
    entry of the cache under [name] is left as it is. *)
Definition avoids (name : string) {A} (m : M A) : Prop :=
  silent name m ∧ respects (untouched name) m.

Lemma avoids_ret (name : string) {A} (a : A) : avoids name (ret a).
Proof. split; [apply silent_ret|by intros g]. Qed.

Lemma avoids_raise (name : string) {A} (e : exn) : avoids name (raise (A:=A) e).
Proof. split; [apply silent_raise|by intros g]. Qed.

Lemma avoids_lift (name : string) {A} (r : result A) : avoids name (lift r).
Proof. split; [apply silent_lift|by intros g]. Qed.

Lemma avoids_get_self (name : string) : avoids name get_self.
Proof. split; [apply silent_get_self|by intros g]. Qed.

Lemma avoids_modify_object (name : string) (f : Generator → Generator) :
  (∀ g, self_cache (f g) = self_cache g) → avoids name (modify_self f).
Proof. intros Hf. split; [by intros g|]. intros g. unfold untouched. cbn. by rewrite Hf. Qed.

Lemma avoids_bind (name : string) {A B} (m : M A) (k : A → M B) :
  avoids name m → (∀ a, avoids name (k a)) → avoids name (m ≫= k).
Proof.
  intros [Hs Hu] Hk. split.
  - apply silent_bind; [done|]. intros a. apply Hk.
  - apply respects_bind; [apply _|done|]. intros a. apply Hk.
Qed.

Lemma avoids_cache (name other : string) (wrapped : M value) :
  other ≠ name → avoids name wrapped → avoids name (cache other wrapped).
Proof.
  intros Hne [Hs Hu]. split.
  - by apply silent_cache.
  - by apply untouched_cache_rule.
Qed.

Lemma avoids_mapM (name : string) {A B} (f : A → M B) (l : list A) :
  Forall (λ x, avoids name (f x)) l → avoids name (mapM f l).
Proof.
  induction 1 as [|x l Hx _ IH]; cbn [mapM]; [apply avoids_ret|].
  apply avoids_bind; [done|]. intros y.
  apply avoids_bind; [done|]. intros ys. apply avoids_ret.
Qed.

Ltac avoids_tac :=
  repeat first
    [ assumption
    | apply avoids_ret | apply avoids_raise | apply avoids_lift
    | apply avoids_get_self
    | progress (lazy zeta)
    | match goal with
      | |- avoids _ (match ?x with _ => _ end) => destruct x
      | |- avoids _ (_ ≫= _) => apply avoids_bind; [|intros ?]
      | |- avoids _ (cache _ _) => apply avoids_cache; [done|]
      end ].

Lemma avoids_area (name : string) : name ≠ "area" → avoids name area.
Proof. intros. unfold area. avoids_tac. Qed.

Lemma avoids_mask (name : string) : name ≠ "mask" → avoids name mask.
Proof. intros. unfold mask. avoids_tac. Qed.

Lemma avoids_crop (name : string) : name ≠ "crop" → avoids name crop.
Proof. intros. unfold crop. avoids_tac. Qed.

Lemma avoids_coordinates (name : string) :
  name ≠ "coordinates" → avoids name coordinates.
Proof. intros. unfold coordinates. avoids_tac. Qed.

Lemma avoids_centroid (name : string) :
  name ≠ "centroid" → name ≠ "coordinates" → avoids name centroid.
Proof.
  intros. assert (avoids name coordinates) by (by apply avoids_coordinates).
  unfold centroid. avoids_tac.
Qed.

Lemma avoids_edge (name : string) :
  name ≠ "edge" → name ≠ "mask" → name ≠ "crop" → avoids name edge.
Proof.
  intros. assert (avoids name mask) by (by apply avoids_mask).
  assert (avoids name crop) by (by apply avoids_crop).
  unfold edge. avoids_tac.
Qed.

Lemma avoids_convex_hull (name : string) :
  name ≠ "convex_hull" → name ≠ "mask" → avoids name convex_hull.
Proof.
  intros. assert (avoids name mask) by (by apply avoids_mask).
  unfold convex_hull. avoids_tac.
Qed.

Lemma avoids_masked (name : string) :
  name ≠ "masked" → name ≠ "mask" → avoids name masked.
Proof.
  intros. assert (avoids name mask) by (by apply avoids_mask).
  unfold masked. avoids_tac.
Qed.

Lemma avoids_spatial_moments (name : string) :
  name ≠ "spatial_moments" → name ≠ "masked" → name ≠ "mask" →
  avoids name spatial_moments.
Proof.
  intros. assert (avoids name masked) by (by apply avoids_masked).
  unfold spatial_moments. avoids_tac.
Qed.

Lemma avoids_local_centroid (name : string) :
  name ≠ "local_centroid" → name ≠ "spatial_moments" → name ≠ "masked" →
  name ≠ "mask" → avoids name local_centroid.
Proof.
  intros. assert (avoids name spatial_moments) by (by apply avoids_spatial_moments).
  unfold local_centroid. avoids_tac.
Qed.

Lemma avoids_central_moments (name : string) :
  name ≠ "central_moments" → name ≠ "local_centroid" →
  name ≠ "spatial_moments" → name ≠ "masked" → name ≠ "mask" →
  avoids name central_moments.
Proof.
  intros. assert (avoids name local_centroid) by (by apply avoids_local_centroid).
  unfold central_moments. avoids_tac.
Qed.

Lemma avoids_inertia_tensor (name : string) :
  name ≠ "inertia_tensor" → name ≠ "central_moments" → name ≠ "local_centroid" →
  name ≠ "spatial_moments" → name ≠ "masked" → name ≠ "mask" →
  avoids name inertia_tensor_.
Proof.
  intros. assert (avoids name central_moments) by (by apply avoids_central_moments).
  unfold inertia_tensor_. avoids_tac.
Qed.

Lemma avoids_maximum_intensity (name : string) :
  name ≠ "_feature_color_object_maximum_intensity" → name ≠ "masked" →
  name ≠ "mask" → avoids name _feature_color_object_maximum_intensity.
Proof.
  intros. assert (avoids name masked) by (by apply avoids_masked).
  unfold _feature_color_object_maximum_intensity, masked_image, max_of. avoids_tac.
Qed.

(** A cached property, read by name: the function it wraps avoids the
    name of the property. *)
Lemma getattr_cached_avoids (name : string) :
  name ∈ cached_properties →
  ∃ wrapped, getattr name = cache name wrapped ∧ avoids name wrapped.
Proof.
  unfold cached_properties. rewrite !elem_of_cons, elem_of_nil.
  intros Hin.
  repeat (destruct Hin as [->|Hin]); [..|done];
    (eexists; split; [reflexivity|]).
  - avoids_tac.
  - assert (avoids "central_moments" local_centroid)
      by (by apply avoids_local_centroid).
    avoids_tac.
  - assert (avoids "centroid" coordinates) by (by apply avoids_coordinates).
    avoids_tac.
  - assert (avoids "convex_hull" mask) by (by apply avoids_mask). avoids_tac.
  - avoids_tac.
  - avoids_tac.
  - assert (avoids "edge" mask) by (by apply avoids_mask).
    assert (avoids "edge" crop) by (by apply avoids_crop). avoids_tac.
  - assert (avoids "inertia_tensor" central_moments)
      by (by apply avoids_central_moments).
    avoids_tac.
  - assert (avoids "inertia_tensor_eigenvalues" inertia_tensor_)
      by (by apply avoids_inertia_tensor).
    avoids_tac.
  - assert (avoids "local_centroid" spatial_moments)
      by (by apply avoids_spatial_moments).
    avoids_tac.
  - avoids_tac.
  - assert (avoids "masked" mask) by (by apply avoids_mask). avoids_tac.
  - assert (avoids "spatial_moments" masked) by (by apply avoids_masked).
    avoids_tac.
  - assert (avoids "_feature_color_object_maximum_intensity" masked)
      by (by apply avoids_masked).
    unfold masked_image, max_of. avoids_tac.
Qed.

(** X6: an exception is not memoized.  When a read of a cached property
    that is not in the cache raises, nothing is stored under its name, the
    exception is the one of the wrapped function, and the next read runs
    the wrapped function again. *)
Theorem raising_read_stores_nothing (name : string) (g : Generator) (e : exn) :
  name ∈ cached_properties →
  self_cache g !! name = None →
  returned (getattr name g) = Raise e →
  let g' := after (getattr name g) in
  self_cache g' !! name = None ∧
  invocations name (invoked (getattr name g)) = 1 ∧
  invocations name (invoked (getattr name g')) = 1.
Proof.
  intros (wrapped & -> & Hs & Hu)%getattr_cached_avoids Hn Hr g'.
  assert (∀ h, self_cache h !! name = None →
               invocations name (invoked (cache name wrapped h)) = 1) as Hone.
  { intros h Hh. rewrite (cache_miss _ _ _ Hh).
    assert (invocations name (name :: invoked (wrapped h)) = 1) as H1.
    { unfold invocations. rewrite filter_cons_True by done. cbn. f_equal. apply Hs. }
    by destruct (returned (wrapped h)). }
  assert (self_cache g' !! name = None) as Hn'.
  { unfold g'. rewrite (cache_miss _ _ _ Hn) in Hr |- *.
    destruct (returned (wrapped g)); [done|]. cbn [after].
    rewrite <- Hn. apply Hu. }
  auto.
Qed.

(** The derived quantities that no feature reads. *)
Definition unused_by_features : list string :=
  ["central_moments"; "convex_hull"; "inertia_tensor";
   "inertia_tensor_eigenvalues"; "local_centroid"].

Ltac head_of_term t := lazymatch t with ?f _ => head_of_term f | _ => t end.

Ltac feature_avoids_tac :=
  match goal with |- avoids _ ?f => let h := head_of_term f in unfold h end;
  unfold edge_image, masked_image, sum_of, mean_of, max_of, min_of,
    centroid_axis, spatial_moment, placeholder;
  avoids_tac.

Lemma features_avoid_unused (name : string) :
  name ∈ unused_by_features →
  Forall (λ p, String.prefix "_feature_" p.1 = true → avoids name p.2) properties.
Proof.
  unfold unused_by_features. rewrite !elem_of_cons, elem_of_nil.
  intros Hin.
  assert (avoids name area ∧ avoids name centroid ∧ avoids name edge ∧
          avoids name masked ∧ avoids name spatial_moments ∧
          avoids name _feature_color_object_maximum_intensity)
    as (? & ? & ? & ? & ? & ?).
  { repeat (destruct Hin as [->|Hin]); [..|done];
      (split; [by apply avoids_area|];
       split; [by apply avoids_centroid|];
       split; [by apply avoids_edge|];
       split; [by apply avoids_masked|];
       split; [by apply avoids_spatial_moments|by apply avoids_maximum_intensity]). }
  clear Hin. unfold properties.
  repeat (constructor;
          [cbn [fst snd]; intros Hp;
           first [ by vm_compute in Hp | clear Hp; feature_avoids_tac ]|]).
  constructor.
Qed.

Lemma members_are_features :
  Forall (λ member, String.prefix "_feature_" member = true) _members.
Proof. apply (bool_decide_unpack _). by vm_compute. Qed.

Lemma avoids_next (name : string) :
  name ∈ unused_by_features → avoids name __next__.
Proof.
  intros Hin. unfold __next__.
  apply avoids_bind; [apply avoids_get_self|]. intros self.
  destruct (py_getitem _ _) as [object|]; [|apply avoids_raise].
  apply avoids_bind; [by apply avoids_modify_object|]. intros _.
  apply avoids_bind; [by apply avoids_modify_object|]. intros _.
  apply avoids_mapM.
  eapply Forall_impl; [apply members_are_features|].
  intros member Hp. unfold getattr.
  destruct (list_find _ _) as [[i [n property]]|] eqn:Hf; [|apply avoids_raise].
  apply list_find_Some in Hf as (Hf & Hn & _). cbn in Hn. subst n.
  by apply (Forall_lookup_1 _ _ _ _ (features_avoid_unused name Hin) Hf).
Qed.

(** X7: the iterator never evaluates [central_moments], [convex_hull],
    [inertia_tensor], [inertia_tensor_eigenvalues] or [local_centroid]: no
    feature reads them.  A call of [next()] runs none of the five wrapped
    functions and leaves their entries of the cache as they are. *)
Theorem next_never_evaluates_unused (name : string) (g : Generator) :
  name ∈ unused_by_features →
  invocations name (invoked (__next__ g)) = 0 ∧
  self_cache (after (__next__ g)) !! name = self_cache g !! name.
Proof. intros [Hs Hu]%avoids_next. split; [apply Hs|apply Hu]. Qed.

End avoidance.

Section dimensions.
Context `{Library}.

Lemma where_equal_length (image : ndarray Q) (v : value) (t : list (list Z)) :
  where_equal image v = Ok t → length t = ndim image.
Proof.
  destruct v; try done. intros [= <-].
  unfold np_nonzero. by rewrite length_fmap, length_seq.
Qed.

Lemma maximum_intensity_x_needs_two_axes (g : Generator) :
  ndim (self_image g) ≠ 2 →
  is_ok (returned (_feature_color_object_maximum_intensity_x g)) = false.
Proof.
  intros Hn. unfold _feature_color_object_maximum_intensity_x.
  rewrite bind_get_self, bind_returned.
  destruct (returned (_feature_color_object_maximum_intensity g)) as [v|]; [|done].
  rewrite bind_returned. cbn [lift returned after].
  destruct (where_equal (self_image g) v) as [t|] eqn:Ht; [|done].
  apply where_equal_length in Ht.
  rewrite bind_returned. cbn [lift returned after].
  destruct t as [|a [|b [|c t]]]; cbn in *; done.
Qed.

Lemma members_maximum_intensity_x :
  _members !! 22 = Some "_feature_color_object_maximum_intensity_x".
Proof. by vm_compute. Qed.

(** X8: a row needs a two-dimensional intensity image.  The feature
    [_feature_color_object_maximum_intensity_x] unpacks the result of
    [numpy.where] into two index arrays, so for an image with another
    number of axes no call of [next()] returns a row. *)
Theorem rows_need_two_image_axes (g : Generator) :
  ndim (self_image g) ≠ 2 →
  is_ok (returned (__next__ g)) = false.
Proof.
  intros Hn.
  destruct (returned (__next__ g)) as [row|] eqn:Hr; [|done]. exfalso.
  destruct (py_getitem (self_objects g) (self_object_index g - 1)) as [o|] eqn:Ho;
    [|by rewrite (next_stop _ Ho) in Hr].
  rewrite (next_row _ _ Ho) in Hr. unfold evaluate_row in Hr.
  assert (Forall (λ x, respects extends (getattr x)) _members) as Hall.
  { apply Forall_forall. intros member _.
    eapply respects_weaken; [|apply step_getattr]. by intros ? ? []. }
  destruct (mapM_lookup extends getattr _members Hall _ _ _ _ Hr
              members_maximum_intensity_x) as (gi & y & [Ha _] & Hy & _).
  change (getattr "_feature_color_object_maximum_intensity_x")
    with _feature_color_object_maximum_intensity_x in Hy.
  pose proof (maximum_intensity_x_needs_two_axes gi) as Hx.
  rewrite Hy in Hx. cbn in Hx. enough (true = false) by done.
  apply Hx. by rewrite Ha.
Qed.

Lemma shifted_axis_none (indices : list (list Z)) (index : nat) :
  index < length indices → shifted_axis indices None index = Raise TypeError.
Proof.
  intros [column Hc]%lookup_lt_is_Some_2. unfold shifted_axis.
  by rewrite index_or_raise_nat, Hc.
Qed.

(** X9: for a current object that is [None], the entry of a label that
    does not occur, a read of [coordinates] that finds nothing in the cache
    raises [TypeError] (images of at least one axis). *)
Theorem coordinates_of_missing_label (g : Generator) :
  self_cache g !! "coordinates" = None →
  self_object g = None →
  0 < ndim (self_label g) → 0 < ndim (self_image g) →
  returned (coordinates g) = Raise TypeError.
Proof.
  intros Hc Ho Hl Hi. unfold coordinates. rewrite (cache_miss _ _ _ Hc).
  match goal with |- returned (match returned ?o with _ => _ end) = _ =>
    assert (Hw : returned o = Raise TypeError); [|by rewrite Hw]
  end.
  rewrite bind_get_self. lazy zeta. rewrite Ho.
  destruct (ndim (self_label g)) as [|n]; [lia|].
  cbn [seq result_mapM]. rewrite shifted_axis_none; [done|].
  unfold np_nonzero. by rewrite length_fmap, length_seq.
Qed.

(** X10: the moment features beyond the first depth slice are zero.  In
    every state of a generator in which [spatial_moments] returns, the
    feature [spatial_moments[a, b, c]] with [a] = 1, 2 or 3 returns 0.0. *)
Theorem deep_spatial_moments_are_zero
    (label : ndarray Z) (image : ndarray Q) (g : Generator) (a b c : nat) :
  reachable label image g →
  is_ok (returned (spatial_moments g)) = true →
  1 ≤ a ≤ 3 → b ≤ 3 → c ≤ 3 →
  returned (spatial_moment a b c g) = Ok (VFloat (Fin 0)).
Proof.
  intros [Hg _]%reachable_valid Hok Ha Hb Hc.
  destruct (returned (spatial_moments g)) as [v|] eqn:Hr; [|done].
  destruct (spatial_moments_returned g v Hg Hr)
    as (mk & u & m & t & _ & _ & _ & Ht & ->).
  unfold spatial_moment. rewrite bind_returned, Hr.
  rewrite bind_returned. cbn [lift as_image returned after].
  unfold setitem_first in Ht. cbn [zeros build shape] in Ht.
  case_decide; [|done]. injection Ht as <-.
  assert (a = 1 ∨ a = 2 ∨ a = 3) as [->|[->| ->]] by lia;
    (assert (b = 0 ∨ b = 1 ∨ b = 2 ∨ b = 3) as [->|[->|[->| ->]]] by lia);
    (assert (c = 0 ∨ c = 1 ∨ c = 2 ∨ c = 3) as [->|[->|[->| ->]]] by lia);
    reflexivity.
Qed.

End dimensions.

(** ** Rows after the first

    The cache is keyed by the name of the property alone, and nothing
    removes an entry.  Every feature but [_feature_metadata_object_index]
    is a function of the image, the label image and the cached quantities,
    so once a row has been returned, every later row repeats it. *)

Section repetition.
Context `{Library}.

(** The attributes of the generator that the features read next to the
    cache and the cursor. *)
Record agrees (g g' : Generator) : Prop := {
  agrees_image : self_image g' = self_image g;
  agrees_label : self_label g' = self_label g;
  agrees_multichannel : self_multichannel g' = self_multichannel g;
  agrees_volumetric : self_volumetric g' = self_volumetric g
}.

#[export] Instance agrees_equivalence : Equivalence agrees.
Proof.
  split.
  - by intros g.
  - intros g1 g2 []. by split.
  - intros g1 g2 g3 [] []. split; congruence.
Qed.

Lemma extends_agrees (g g' : Generator) : extends g g' → agrees g g'.
Proof. intros [Ha _]. split; rewrite Ha; by destruct g. Qed.

(** [m] repeats itself: where it has returned a value, it returns the same
    value in every generator with the same images whose cache holds what
    [m] left in the cache. *)
Definition repeats {A} (m : M A) : Prop :=
  respects extends m ∧
  ∀ g g' a, agrees g g' → self_cache (after (m g)) ⊆ self_cache g' →
    returned (m g) = Ok a → returned (m g') = Ok a.

Lemma repeats_ret {A} (a : A) : repeats (ret a).
Proof. split; [apply respects_ret; apply _|done]. Qed.

Lemma repeats_raise {A} (e : exn) : repeats (raise (A:=A) e).
Proof. split; [apply respects_raise; apply _|done]. Qed.

Lemma repeats_lift {A} (r : result A) : repeats (lift r).
Proof. split; [apply respects_lift; apply _|done]. Qed.

Lemma repeats_bind {A B} (m : M A) (k : A → M B) :
  repeats m → (∀ a, repeats (k a)) → repeats (m ≫= k).
Proof.
  intros [Em Rm] Hk. split.
  { apply respects_bind; [apply _|done|]. intros a. apply Hk. }
  intros g g' b Hg Hc. rewrite bind_after in Hc. rewrite !bind_returned.
  destruct (returned (m g)) as [a|] eqn:Ha; [|done]. intros Hb.
  destruct (Hk a) as [Ek Rk].
  assert (self_cache (after (m g)) ⊆ self_cache g') as Hc'.
  { etrans; [|exact Hc]. apply Ek. }
  rewrite (Rm g g' a Hg Hc' Ha).
  apply (Rk (after (m g))); [|by etrans; [|apply Em]|done].
  transitivity g; [symmetry; apply extends_agrees, Em|].
  transitivity g'; [exact Hg|apply extends_agrees, Em].
Qed.

(** A function that reads [self] for its images only. *)
Lemma repeats_self {A} (k : Generator → M A) :
  (∀ s, repeats (k s)) → (∀ s s', agrees s s' → k s' = k s) →
  repeats (get_self ≫= k).
Proof.
  intros Hk Hs. split.
  { apply respects_bind; [apply _|apply respects_get_self; apply _|].
    intros s. apply Hk. }
  intros g g' a Hg. rewrite !bind_get_self, (Hs g g' Hg). by apply Hk.
Qed.

(** A cached property: the value it returned is in the cache. *)
Lemma repeats_cached (name : string) (wrapped : M value) (m : M value) :
  m = cache name wrapped → respects step m → repeats m.
Proof.
  intros -> Hm. split.
  { eapply respects_weaken; [|exact Hm]. by intros ? ? []. }
  intros g g' a _ Hc Ha. apply cache_returned in Ha.
  by rewrite (cache_hit _ _ _ _ (lookup_weaken _ _ _ _ Ha Hc)).
Qed.

Ltac repeats_tac :=
  repeat first
    [ assumption
    | apply repeats_ret | apply repeats_raise | apply repeats_lift
    | progress (lazy beta zeta)
    | match goal with
      | |- repeats (match ?x with _ => _ end) => destruct x
      | |- repeats (get_self ≫= _) =>
          apply repeats_self;
          [intros ?
          |let Hi := fresh in let Hl := fresh in
           let Hm := fresh in let Hv := fresh in
           intros ? ? [Hi Hl Hm Hv]; lazy beta;
           rewrite ?Hi, ?Hl, ?Hm, ?Hv; reflexivity]
      | |- repeats (_ ≫= _) => apply repeats_bind; [|intros ?]
      end ].

Ltac head_of_feature t := lazymatch t with ?f _ => head_of_feature f | _ => t end.

Ltac feature_repeats_tac :=
  match goal with |- repeats ?f => let h := head_of_feature f in unfold h end;
  unfold edge_image, masked_image, sum_of, mean_of, max_of, min_of,
    centroid_axis, spatial_moment, placeholder;
  repeats_tac.

(** The name of the one feature that reads the cursor. *)
Definition index_feature : string := "_feature_metadata_object_index".

Lemma properties_repeat :
  Forall (λ p, p.1 ≠ index_feature → repeats p.2) properties.
Proof.
  pose proof (repeats_cached _ _ area eq_refl step_area).
  pose proof (repeats_cached _ _ central_moments eq_refl step_central_moments).
  pose proof (repeats_cached _ _ centroid eq_refl step_centroid).
  pose proof (repeats_cached _ _ convex_hull eq_refl step_convex_hull).
  pose proof (repeats_cached _ _ coordinates eq_refl step_coordinates).
  pose proof (repeats_cached _ _ crop eq_refl step_crop).
  pose proof (repeats_cached _ _ edge eq_refl step_edge).
  pose proof (repeats_cached _ _ inertia_tensor_ eq_refl step_inertia_tensor).
  pose proof (repeats_cached _ _ inertia_tensor_eigenvalues eq_refl
                step_inertia_tensor_eigenvalues).
  pose proof (repeats_cached _ _ local_centroid eq_refl step_local_centroid).
  pose proof (repeats_cached _ _ mask eq_refl step_mask).
  pose proof (repeats_cached _ _ masked eq_refl step_masked).
  pose proof (repeats_cached _ _ spatial_moments eq_refl step_spatial_moments).
  pose proof (repeats_cached _ _ _feature_color_object_maximum_intensity eq_refl
                step_maximum_intensity).
  unfold properties.
  repeat (constructor;
          [cbn [fst snd]; intros Hp;
           first [ assumption | by destruct Hp | clear Hp; feature_repeats_tac ]|]).
  constructor.
Qed.

Lemma getattr_repeats (member : string) :
  member ≠ index_feature → repeats (getattr member).
Proof.
  intros Hm. unfold getattr.
  destruct (list_find _ _) as [[i [name property]]|] eqn:Hf; [|apply repeats_raise].
  apply list_find_Some in Hf as (Hf & Hn & _). cbn in Hn. subst name.
  by apply (Forall_lookup_1 _ _ _ _ properties_repeat Hf).
Qed.

(** The value that a later row holds for the feature [member], given the
    value [v] of an earlier row. *)
Definition repeated (index : Z) (member : string) (v : value) : value :=
  if decide (member = index_feature) then VInt index else v.

Lemma getattr_repeated (member : string) (g g' : Generator) (v : value) :
  agrees g g' → self_cache (after (getattr member g)) ⊆ self_cache g' →
  returned (getattr member g) = Ok v →
  returned (getattr member g') = Ok (repeated (self_object_index g') member v).
Proof.
  intros Hg Hc Hv. unfold repeated. destruct (decide _) as [->|Hm].
  - unfold index_feature. by rewrite getattr_object_index.
  - destruct (getattr_repeats member Hm) as [_ Hr]. by apply Hr with g.
Qed.

Lemma mapM_getattr_repeated (members : list string) (g g' : Generator)
    (row : list value) :
  agrees g g' → self_cache (after (mapM getattr members g)) ⊆ self_cache g' →
  returned (mapM getattr members g) = Ok row →
  returned (mapM getattr members g')
  = Ok (zip_with (repeated (self_object_index g')) members row).
Proof.
  revert g g' row. induction members as [|member members IH]; intros g g' row Hg Hc.
  { cbn. by intros [= <-]. }
  intros (v & row' & Hv & Hrow & ->)%mapM_cons_returned.
  pose proof (step_getattr member g) as [Eg _].
  pose proof (step_getattr member g') as [Eg' _].
  assert (after (mapM getattr (member :: members) g)
          = after (mapM getattr members (after (getattr member g)))) as Ha.
  { cbn [mapM]. rewrite bind_after, Hv, bind_after, Hrow. done. }
  rewrite Ha in Hc.
  assert (self_cache (after (getattr member g)) ⊆ self_cache g') as Hc'.
  { etrans; [|exact Hc]. apply extends_mapM_getattr. }
  pose proof (getattr_repeated member g g' v Hg Hc' Hv) as Hv'.
  cbn [mapM]. rewrite bind_returned, Hv', bind_returned.
  rewrite (IH (after (getattr member g)) (after (getattr member g')) row'); [| | |done].
  - cbn. do 3 f_equal. rewrite (extends_attributes _ _ Eg'). done.
  - transitivity g; [symmetry; by apply extends_agrees|].
    transitivity g'; [done|by apply extends_agrees].
  - etrans; [exact Hc|apply Eg'].
Qed.

Lemma zip_with_repeated_other (index : Z) (members : list string) (row : list value) :
  index_feature ∉ members → length row = length members →
  zip_with (repeated index) members row = row.
Proof.
  revert row. induction members as [|member members IH]; intros [|v row]; try done.
  rewrite not_elem_of_cons. intros [Hm Hi] [= Hl]. cbn.
  rewrite IH by done. unfold repeated. by rewrite decide_False.
Qed.

Lemma zip_with_repeated (index : Z) (members : list string) (row : list value)
    (i : nat) :
  NoDup members → members !! i = Some index_feature →
  length row = length members →
  zip_with (repeated index) members row = <[i := VInt index]> row.
Proof.
  revert row i. induction members as [|member members IH]; intros [|v row] i; try done.
  rewrite NoDup_cons. intros [Hm Hd] Hi [= Hl]. destruct i as [|i]; cbn in Hi.
  - injection Hi as ->. cbn. rewrite zip_with_repeated_other by done.
    unfold repeated. by rewrite decide_True.
  - cbn. rewrite (IH row i) by done. unfold repeated.
    rewrite decide_False; [done|]. intros ->. apply Hm.
    by eapply list_elem_of_lookup_2.
Qed.

Lemma members_no_dup : NoDup _members.
Proof. apply (bool_decide_unpack _). by vm_compute. Qed.

Lemma agrees_perform (a : action) (g : Generator) : agrees g (perform a g).
Proof.
  destruct a as [|member]; cbn [perform].
  - unfold __next__. rewrite bind_get_self.
    destruct (py_getitem _ _) as [object|]; [|done].
    rewrite !bind_modify_self.
    etrans; [|apply extends_agrees, extends_mapM_getattr]. done.
  - apply extends_agrees, step_getattr.
Qed.

Lemma agrees_run (actions : list action) (g : Generator) :
  agrees g (foldl (λ g a, perform a g) g actions).
Proof.
  induction actions as [|a actions IH] using rev_ind; [reflexivity|].
  rewrite foldl_app. cbn. etrans; [exact IH|apply agrees_perform].
Qed.

(** A row that [__next__] has returned is returned again, but for the
    object index, in every generator with the same images whose cache holds
    what the row left in the cache. *)
Lemma next_repeated (g g' : Generator) (row : list value)
    (object : option (list slice)) :
  returned (__next__ g) = Ok row →
  agrees g g' → self_cache (after (__next__ g)) ⊆ self_cache g' →
  py_getitem (self_objects g') (self_object_index g' - 1) = Some object →
  returned (__next__ g')
  = Ok (<[44 := VInt (self_object_index g' + 1)]> row).
Proof.
  intros Hrow Hg Hc Ho.
  destruct (py_getitem (self_objects g) (self_object_index g - 1))
    as [first|] eqn:Hf; [|by rewrite (next_stop _ Hf) in Hrow].
  rewrite (next_row _ _ Hf) in Hrow, Hc. rewrite (next_row _ _ Ho).
  unfold evaluate_row in *.
  set (h := with_object_index (self_object_index g + 1) (with_object first g)) in *.
  set (h' := with_object_index (self_object_index g' + 1) (with_object object g')).
  assert (agrees h h') as Hh.
  { destruct Hg as [Hi Hl Hm Hv]. split; [exact Hi|exact Hl|exact Hm|exact Hv]. }
  rewrite (mapM_getattr_repeated _members h h' row Hh Hc Hrow).
  f_equal. apply zip_with_repeated;
    [apply members_no_dup|apply members_object_index|by eapply mapM_length].
Qed.

Lemma later_run (g : Generator) (actions : list action) :
  let g' := foldl (λ g a, perform a g) (after (__next__ g)) actions in
  agrees g g' ∧ self_cache (after (__next__ g)) ⊆ self_cache g'.
Proof.
  intros g'. split.
  - transitivity (after (__next__ g));
      [exact (agrees_perform Advance g)|exact (agrees_run actions _)].
  - exact (advances_cache _ _ (advances_run actions _)).
Qed.


End repetition.

Section table.
Context `{Library}.

Lemma after_calls_run (k : nat) (g : Generator) :
  after_calls k g = foldl (λ g a, perform a g) g (replicate k Advance).
Proof.
  induction k as [|k IH]; [done|].
  rewrite replicate_S_end, foldl_app. cbn. by rewrite IH.
Qed.

Lemma after_calls_S (k : nat) (g : Generator) :
  after_calls (S k) g = after_calls k (after (__next__ g)).
Proof.
  induction k as [|k IH]; [done|].
  change (after_calls (S (S k)) g) with (after (__next__ (after_calls (S k) g))).
  by rewrite IH.
Qed.

Lemma row_object_index (g : Generator) (row : list value) :
  returned (__next__ g) = Ok row →
  row !! 44 = Some (VInt (self_object_index g + 1)).
Proof.
  intros Hr.
  destruct (py_getitem (self_objects g) (self_object_index g - 1)) as [o|] eqn:Hg;
    [|by rewrite (next_stop _ Hg) in Hr].
  rewrite (next_row _ _ Hg) in Hr. unfold evaluate_row in Hr.
  destruct members_object_index as [Hm _].
  assert (Forall (λ x, respects extends (getattr x)) _members) as Hall.
  { apply Forall_forall. intros member _.
    eapply respects_weaken; [|apply step_getattr]. by intros ? ? []. }
  destruct (mapM_lookup extends getattr _members Hall _ _ _ _ Hr Hm)
    as (gi & y & [Ha _] & Hy & Hrow).
  rewrite getattr_object_index in Hy. cbn in Hy. injection Hy as <-.
  rewrite Hrow, Ha. done.
Qed.

(** X12: the table of a generator.  If the first call of [next()] on a
    new generator returns a row, then each of the [n] calls that find an
    object returns that row, with [k + 2] as the object index of call
    number [k + 1]: all rows of the table hold the features of the first
    object. *)
Theorem table_repeats_first_row
    (label : ndarray Z) (image : ndarray Q) (g0 : Generator)
    (row : list value) (k : nat) :
  __init__ label image = Ok g0 →
  returned (__next__ g0) = Ok row →
  k < length (self_objects g0) →
  returned (__next__ (after_calls k g0))
  = Ok (<[44 := VInt (Z.of_nat k + 2)]> row).
Proof.
  intros Hi Hrow Hk. pose proof (init_cursor _ _ _ Hi) as H1.
  destruct k as [|k].
  { cbn [after_calls]. rewrite list_insert_id; [done|].
    rewrite (row_object_index _ _ Hrow), H1. done. }
  pose proof (after_calls_lookup g0 (S k) H1) as Ho.
  rewrite Nat.min_l in Ho by lia.
  destruct (lookup_lt_is_Some_2 (self_objects g0) (S k) Hk) as [object Hobject].
  rewrite Hobject in Ho.
  destruct (after_calls_cursor g0 (S k) H1) as [_ Hc].
  rewrite Nat.min_l in Hc by lia.
  rewrite after_calls_S, after_calls_run in Ho, Hc |- *.
  destruct (later_run g0 (replicate k Advance)) as [Hg Hs].
  rewrite (next_repeated g0 _ row object Hrow Hg Hs Ho).
  rewrite Hc. do 3 f_equal. lia.
Qed.

(** X13: the names of the columns.  Every column is the name of the
    feature at the same position without its prefix [_feature_], the
    features are in the ascending order of their names, and no two columns
    have the same name. *)
Theorem column_names :
  Forall2 (λ member c, member = "_feature_" +:+ c) _members columns ∧
  Sorted name_le _members ∧ NoDup columns.
Proof.
  split; [|split]; apply (bool_decide_unpack _); by vm_compute.
Qed.

End table.

Section image_area.
Context `{Library}.

Lemma tuple_lt_irrefl (a : list nat) : tuple_lt a a = false.
Proof.
  induction a as [|x a IH]; [done|]. cbn.
  destruct (decide (x < x)); [lia|done].
Qed.

Lemma tuple_lt_prefix (a : list nat) (c : nat) : tuple_lt a (a ++ [c]) = true.
Proof.
  induction a as [|x a IH]; [done|]. cbn.
  destruct (decide (x < x)); [lia|done].
Qed.

(** X14: the area of the image.  For an intensity image of the shape of
    the label image, or of that shape with one more, trailing, channel
    axis, and a conversion to float that keeps the shape, the feature
    [_feature_shape_image_area] is the number of pixels of the label image
    in every state of the generator. *)
Theorem image_area_counts_label_pixels
    (label : ndarray Z) (image : ndarray Q) (g : Generator) :
  reachable label image g →
  shape (img_as_float32 image) = shape image →
  compatible_shapes label image →
  returned (_feature_shape_image_area g) = Ok (VInt (Z.of_nat (size label))).
Proof.
  intros (g0 & actions & Hi & ->) Hf Hs.
  destruct (agrees_run actions g0) as [Himage _ Hmulti _].
  apply init_inv in Hi as (objects & object & _ & _ & ->).
  unfold _feature_shape_image_area. rewrite bind_get_self. lazy zeta.
  rewrite Himage, Hmulti. cbn [self_image self_multichannel]. rewrite Hf.
  unfold size. destruct Hs as [->|[channels ->]].
  - by rewrite tuple_lt_irrefl.
  - rewrite tuple_lt_prefix, length_app. cbn [length].
    replace (length (shape label) + 1 - 1) with (length (shape label)) by lia.
    by rewrite take_app_length.
Qed.

End image_area.

Section label_sum.
Context `{Library}.

Lemma area_returned (g : Generator) :
  valid g → returned (area g) = Ok (VInt (np_sum_int (self_label g))).
Proof.
  intros Hv. unfold area.
  destruct (self_cache g !! "area") as [v|] eqn:Hc.
  - rewrite (cache_hit _ _ _ _ Hc). cbn. by rewrite (valid_area _ Hv _ Hc).
  - by rewrite (cache_miss _ _ _ Hc).
Qed.

(** X15: the features that read [area].  In every state of a generator
    the extent of the object is the sum of the values of the whole label
    image divided by its number of pixels, and, for a label image of [n > 0]
    axes, the equivalent diameter is the [n]-th root of [2 n] times that
    sum over pi: neither depends on the current object. *)
Theorem extent_is_label_sum_over_size
    (label : ndarray Z) (image : ndarray Q) (g : Generator) :
  reachable label image g →
  returned (_feature_shape_object_extent g)
  = Ok (VFloat (fdiv (inject_Z (np_sum_int label))
                     (inject_Z (Z.of_nat (size label))))) ∧
  (0 < ndim label →
   returned (_feature_shape_object_equivalent_diameter g)
   = Ok (root_over_pi (2 * Z.of_nat (ndim label) * np_sum_int label) (ndim label))).
Proof.
  intros [Hv Hl]%reachable_valid.
  pose proof (area_returned g Hv) as Ha. rewrite Hl in Ha.
  destruct (step_area g) as [[Hg _] _].
  assert (self_label (after (area g)) = label) as Hl'.
  { rewrite Hg. by destruct g. }
  split.
  - unfold _feature_shape_object_extent.
    rewrite bind_returned, Ha, bind_returned. cbn [lift as_int returned after].
    rewrite bind_get_self. cbn [ret returned]. by rewrite Hl'.
  - intros Hn. unfold _feature_shape_object_equivalent_diameter.
    rewrite bind_get_self. lazy zeta. rewrite Hl.
    rewrite bind_returned, Ha, bind_returned. cbn [lift as_int returned after].
    destruct (decide (ndim label = 0)); [lia|done].
Qed.

End label_sum.

(** ** The further properties on the examples *)

(** A label image in which the label 1 does not occur: [find_objects]
    returns [None] for it. *)
Definition gap_label : ndarray Z := NdArray [1; 2] [0; 2]%Z.

(** X2 on the two-object example: the area stored by a read before the
    first row is what [area] returns after two rows. *)
Lemma cache_entries_are_permanent_witness :
  let g := perform (Read "area") two_start in
  "area" ∈ cached_properties ∧
  self_cache g !! "area" = Some (VInt 3) ∧
  let g' := foldl (λ g a, perform a g) g [Advance; Read "mask"; Advance] in
  self_cache g' !! "area" = Some (VInt 3) ∧
  getattr "area" g' = mkOutcome (Ok (VInt 3)) g' [].
Proof.
  assert ("area" ∈ cached_properties) as Hin.
  { unfold cached_properties. rewrite !elem_of_cons. tauto. }
  assert (self_cache (perform (Read "area") two_start) !! "area" = Some (VInt 3))
    as Hv by (vm_compute; reflexivity).
  split; [exact Hin|]. split; [exact Hv|].
  exact (cache_entries_are_permanent "area" (VInt 3)
           (perform (Read "area") two_start) [Advance; Read "mask"; Advance] Hin Hv).
Defined.

(** X3 on the two-object example, for the second call. *)
Lemma next_goes_through_the_objects_witness :
  __init__ two_label two_image = Ok two_start ∧
  let n := length (self_objects two_start) in
  Z.of_nat n ∈ data two_label ∧
  Forall (λ x, (x ≤ Z.of_nat n)%Z) (data two_label) ∧
  (1 < n →
   ∃ object,
     self_objects two_start !! 1 = Some object ∧
     __next__ (after_calls 1 two_start) = evaluate_row object (after_calls 1 two_start) ∧
     self_object (after_calls 2 two_start) = object ∧
     self_object_index (after_calls 2 two_start) = (Z.of_nat 1 + 2)%Z) ∧
  (n ≤ 1 →
   __next__ (after_calls 1 two_start)
   = mkOutcome (Raise StopIteration) (after_calls n two_start) []).
Proof.
  split; [exact two_init|].
  exact (next_goes_through_the_objects two_label two_image two_start 1 two_init).
Defined.

(** X4 on the two-object example, after three calls of [next()]. *)
Lemma cursor_stays_in_range_witness :
  let g := foldl (λ g a, perform a g) two_start [Advance; Advance; Advance] in
  reachable two_label two_image g ∧
  cursor_in_range g ∧ find_objects two_label = Ok (self_objects g).
Proof.
  assert (reachable two_label two_image
            (foldl (λ g a, perform a g) two_start [Advance; Advance; Advance]))
    as Hr.
  { eexists _, _. split; [exact two_init|reflexivity]. }
  split; [exact Hr|]. exact (cursor_stays_in_range two_label two_image _ Hr).
Defined.

(** X5 on the first row of the two-object example. *)
Lemma row_has_one_value_per_column_witness :
  ∃ row,
    returned (__next__ two_start) = Ok row ∧
    length row = length columns ∧ length columns = 197.
Proof.
  eexists. split; [vm_compute; reflexivity|].
  apply (row_has_one_value_per_column two_start). vm_compute; reflexivity.
Defined.

(** X6 on the three-dimensional example, where [spatial_moments] raises
    [ValueError]. *)
Lemma raising_read_stores_nothing_witness :
  "spatial_moments" ∈ cached_properties ∧
  self_cache cube_start !! "spatial_moments" = None ∧
  returned (getattr "spatial_moments" cube_start) = Raise ValueError ∧
  let g' := after (getattr "spatial_moments" cube_start) in
  self_cache g' !! "spatial_moments" = None ∧
  invocations "spatial_moments" (invoked (getattr "spatial_moments" cube_start)) = 1 ∧
  invocations "spatial_moments" (invoked (getattr "spatial_moments" g')) = 1.
Proof.
  assert ("spatial_moments" ∈ cached_properties) as Hin.
  { unfold cached_properties. rewrite !elem_of_cons. tauto. }
  assert (self_cache cube_start !! "spatial_moments" = None) as Hn by reflexivity.
  assert (returned (getattr "spatial_moments" cube_start) = Raise ValueError)
    as Hr by (vm_compute; reflexivity).
  split; [exact Hin|]. split; [exact Hn|]. split; [exact Hr|].
  exact (raising_read_stores_nothing "spatial_moments" cube_start ValueError Hin Hn Hr).
Defined.

(** X7 for [convex_hull] on the two-object example. *)
Lemma next_never_evaluates_unused_witness :
  "convex_hull" ∈ unused_by_features ∧
  invocations "convex_hull" (invoked (__next__ two_start)) = 0 ∧
  self_cache (after (__next__ two_start)) !! "convex_hull"
  = self_cache two_start !! "convex_hull".
Proof.
  assert ("convex_hull" ∈ unused_by_features) as Hin.
  { unfold unused_by_features. rewrite !elem_of_cons. tauto. }
  split; [exact Hin|].
  exact (next_never_evaluates_unused "convex_hull" two_start Hin).
Defined.

(** X8 on the three-dimensional example. *)
Lemma rows_need_two_image_axes_witness :
  ndim (self_image cube_start) ≠ 2 ∧
  is_ok (returned (__next__ cube_start)) = false.
Proof.
  assert (ndim (self_image cube_start) ≠ 2) as Hn by (vm_compute; lia).
  split; [exact Hn|]. exact (rows_need_two_image_axes cube_start Hn).
Defined.

(** X9 on a label image without the label 1. *)
Lemma coordinates_of_missing_label_witness :
  ∃ g, __init__ gap_label two_image = Ok g ∧
       self_object g = None ∧
       returned (coordinates g) = Raise TypeError.
Proof.
  eexists. split; [reflexivity|]. split; [reflexivity|].
  apply coordinates_of_missing_label;
    [reflexivity|reflexivity|vm_compute; lia|vm_compute; lia].
Defined.

(** X10 on the two-object example, for [spatial_moments[1, 0, 0]]. *)
Lemma deep_spatial_moments_are_zero_witness :
  reachable two_label two_image two_start ∧
  is_ok (returned (spatial_moments two_start)) = true ∧
  returned (spatial_moment 1 0 0 two_start) = Ok (VFloat (Fin 0)).
Proof.
  assert (reachable two_label two_image two_start) as Hr.
  { exists two_start, []. split; [exact two_init|reflexivity]. }
  assert (is_ok (returned (spatial_moments two_start)) = true) as Hok
    by (vm_compute; reflexivity).
  split; [exact Hr|]. split; [exact Hok|].
  apply (deep_spatial_moments_are_zero two_label two_image two_start 1 0 0 Hr Hok); lia.
Defined.


(** X12 on the two-object example, for the second call. *)
Lemma table_repeats_first_row_witness :
  ∃ row,
    returned (__next__ two_start) = Ok row ∧
    returned (__next__ (after_calls 1 two_start))
    = Ok (<[44 := VInt (Z.of_nat 1 + 2)]> row).
Proof.
  eexists. split; [vm_compute; reflexivity|].
  apply (table_repeats_first_row two_label two_image two_start _ 1);
    [exact two_init|vm_compute; reflexivity|vm_compute; lia].
Defined.

(** X14 on the two-object example. *)
Lemma image_area_counts_label_pixels_witness :
  reachable two_label two_image two_start ∧
  compatible_shapes two_label two_image ∧
  returned (_feature_shape_image_area two_start) = Ok (VInt (Z.of_nat (size two_label))).
Proof.
  assert (reachable two_label two_image two_start) as Hr.
  { exists two_start, []. split; [exact two_init|reflexivity]. }
  assert (compatible_shapes two_label two_image) as Hs by (by left).
  split; [exact Hr|]. split; [exact Hs|].
  exact (image_area_counts_label_pixels two_label two_image two_start Hr eq_refl Hs).
Defined.

(** X15 on the two-object example: the label values sum to 3 over 2
    pixels. *)
Lemma extent_is_label_sum_over_size_witness :
  reachable two_label two_image two_start ∧
  returned (_feature_shape_object_extent two_start)
  = Ok (VFloat (fdiv (inject_Z (np_sum_int two_label))
                     (inject_Z (Z.of_nat (size two_label))))) ∧
  (0 < ndim two_label →
   returned (_feature_shape_object_equivalent_diameter two_start)
   = Ok (root_over_pi (2 * Z.of_nat (ndim two_label) * np_sum_int two_label)
           (ndim two_label))).
Proof.
  assert (reachable two_label two_image two_start) as Hr.
  { exists two_start, []. split; [exact two_init|reflexivity]. }
  split; [exact Hr|].
  exact (extent_is_label_sum_over_size two_label two_image two_start Hr).
Defined.
